(** * DFAE backend: battery extraction and the upload / retrieve handlers

    A shallow embedding of [Battery.py] and [main.py].

    Modelling conventions
    - Python numbers ([int] and finite [float]) are canonical rationals
      [Qc]; arithmetic is exact, the rounding of binary floating point is
      not modelled, and NaN / infinities are outside the model.
    - A decoded pymavlink message is its type name together with the
      dictionary of its fields ([msg.to_dict()]); attribute access is a
      lookup in that dictionary.
    - A Python call either returns or raises: [outcome].  Code that also
      touches the file system or the clock runs in the monad [M] over
      [world].
    - [logging] calls have no influence on results and are left out. *)

From Stdlib Require Import Ascii String QArith Qcanon Qround.
From stdpp Require Import base option list gmap strings sorting numbers pretty.

#[local] Set Warnings "-clear-no-such-hyp".

Local Open Scope string_scope.
Local Open Scope list_scope.

(** ** Python values, exceptions and outcomes *)

(** What pymavlink hands out for a field: a number or a string. *)
Inductive value : Type :=
  | VNum (q : Qc)
  | VStr (s : string).

Inductive exn : Type :=
  | AttributeError (name : string)
  | TypeError (what : string)
  | StatisticsError (what : string)
  | OSError (what : string)
  | ValueError (what : string).

(** [str(e)] *)
Definition str_exn (e : exn) : string :=
  match e with
  | AttributeError s | TypeError s | StatisticsError s | OSError s
  | ValueError s => s
  end.

Inductive outcome (A : Type) : Type :=
  | Returns (a : A)
  | Raises (e : exn).
Arguments Returns {A} a.
Arguments Raises {A} e.

Definition obind {A B} (x : outcome A) (f : A → outcome B) : outcome B :=
  match x with
  | Returns a => f a
  | Raises e => Raises e
  end.

Declare Scope outcome_scope.
Delimit Scope outcome_scope with out.
Notation "x ←! e1 ; e2" := (obind e1 (λ x, e2))
  (at level 20, e1 at level 100, e2 at level 200, only parsing)
  : outcome_scope.
Notation "' pat ←! e1 ; e2" := (obind e1 (λ pat, e2))
  (at level 20, pat pattern, e1 at level 100, e2 at level 200, only parsing)
  : outcome_scope.
Local Open Scope outcome_scope.

Definition returns {A} (x : outcome A) : bool :=
  match x with Returns _ => true | Raises _ => false end.

(** ** Builtins used by the code *)

Definition Qc_ltb (x y : Qc) : bool :=
  match (x ?= y)%Qc with Lt => true | _ => false end.

(** [a < b] on Python values: numbers by value, strings by code point,
    a number against a string is a [TypeError]. *)
Definition py_lt (a b : value) : outcome bool :=
  match a, b with
  | VNum x, VNum y => Returns (Qc_ltb x y)
  | VStr s, VStr t => Returns (String.ltb s t)
  | _, _ => Raises (TypeError "'<' not supported between instances")
  end.

Definition py_gt (a b : value) : outcome bool := py_lt b a.

(** [max(xs)], [min(xs)] for a non-empty list: keep the first item and
    replace it by a later one that compares strictly greater (smaller). *)
Fixpoint extremum (better : value → value → outcome bool)
    (best : value) (rest : list value) : outcome value :=
  match rest with
  | [] => Returns best
  | item :: rest =>
      b ←! better item best;
      extremum better (if b then item else best) rest
  end.

Definition py_max (xs : list value) : outcome value :=
  match xs with
  | [] => Raises (ValueError "max() arg is an empty sequence")
  | x :: rest => extremum py_gt x rest
  end.

Definition py_min (xs : list value) : outcome value :=
  match xs with
  | [] => Raises (ValueError "min() arg is an empty sequence")
  | x :: rest => extremum py_lt x rest
  end.

(** The exact sum [statistics._sum] accumulates; a string is rejected. *)
Fixpoint exact_sum (xs : list value) : outcome Qc :=
  match xs with
  | [] => Returns 0%Qc
  | VNum q :: rest => t ←! exact_sum rest; Returns (q + t)%Qc
  | VStr _ :: _ => Raises (TypeError "can't convert type 'str' to numerator/denominator")
  end.

Definition Qc_of_nat (n : nat) : Qc := Qc_of_Z (Z.of_nat n).

(** [statistics.mean(xs)] *)
Definition statistics_mean (xs : list value) : outcome value :=
  match xs with
  | [] => Raises (StatisticsError "mean requires at least one data point")
  | _ =>
      total ←! exact_sum xs;
      Returns (VNum (total / Qc_of_nat (length xs))%Qc)
  end.

(** [x / 1e6] *)
Definition py_truediv_1e6 (x : value) : outcome Qc :=
  match x with
  | VNum q => Returns (q / Qc_of_Z 1000000)%Qc
  | VStr _ => Raises (TypeError "unsupported operand type(s) for /: 'str' and 'float'")
  end.

(** ** pymavlink messages and logs *)

Record msg : Type := Msg {
  get_type : string;
  to_dict : gmap string value
}.

(** [msg.<name>] *)
Definition getattr (m : msg) (name : string) : outcome value :=
  match to_dict m !! name with
  | Some v => Returns v
  | None => Raises (AttributeError name)
  end.

Definition hasattr (m : msg) (name : string) : bool :=
  bool_decide (is_Some (to_dict m !! name)).

(** [msg.<name> if hasattr(msg, '<name>') else None] *)
Definition getattr_or_None (m : msg) (name : string) : outcome (option value) :=
  if hasattr m name then v ←! getattr m name; Returns (Some v)
  else Returns None.

(** One step of [mlog.recv_match(blocking=False)] on a log file: the next
    decoded message, or an exception raised by the reader.  The end of the
    list is the [None] that ends the loop. *)
Inductive frame : Type :=
  | Frame (m : msg)
  | BadRead (e : exn).

(** ** Battery.py *)

(** One element of [battery_data]: the dictionary built at lines 26-38,
    with Python's [None] as [None]. *)
Record battery_record : Type := BatteryRecord {
  r_timestamp : Qc;
  r_Volt : value;
  r_VoltR : option value;
  r_Curr : value;
  r_CurrTot : option value;
  r_EnrgTot : option value;
  r_Temp : option value;
  r_Res : option value;
  r_RemPct : option value;
  r_H : option value;
  r_SH : option value
}.

(** The dictionary returned by [process_battery_data]. *)
Record battery_result : Type := BatteryResult {
  battery_data : list battery_record;
  max_voltage : option value;
  min_voltage : option value;
  mean_voltage : option value
}.

(** Lines 26-38: the record of one BAT message, fields evaluated in the
    order of the dictionary display. *)
Definition bat_record (m : msg) : outcome battery_record :=
  TimeUS ←! getattr m "TimeUS";
  timestamp ←! py_truediv_1e6 TimeUS;
  Volt ←! getattr m "Volt";
  VoltR ←! getattr_or_None m "VoltR";
  Curr ←! getattr m "Curr";
  CurrTot ←! getattr_or_None m "CurrTot";
  EnrgTot ←! getattr_or_None m "EnrgTot";
  Temp ←! getattr_or_None m "Temp";
  Res ←! getattr_or_None m "Res";
  RemPct ←! getattr_or_None m "RemPct";
  H ←! getattr_or_None m "H";
  SH ←! getattr_or_None m "SH";
  Returns (BatteryRecord timestamp Volt VoltR Curr CurrTot EnrgTot Temp Res
             RemPct H SH).

(** Lines 15-38: the [while True] loop over the remaining frames of the
    log, with the two lists it appends to. *)
Fixpoint bat_loop (frames : list frame)
    (battery_data : list battery_record) (voltages : list value)
    : outcome (list battery_record * list value) :=
  match frames with
  | [] => Returns (battery_data, voltages)
  | BadRead e :: _ => Raises e
  | Frame m :: frames =>
      if String.eqb (get_type m) "BAT" then
        voltage ←! getattr m "Volt";
        let voltages := voltages ++ [voltage] in
        record ←! bat_record m;
        bat_loop frames (battery_data ++ [record]) voltages
      else bat_loop frames battery_data voltages
  end.

(** Lines 44-47: [f(voltages) if voltages else None]. *)
Definition if_nonempty (f : list value → outcome value) (voltages : list value)
    : outcome (option value) :=
  match voltages with
  | [] => Returns None
  | _ => v ←! f voltages; Returns (Some v)
  end.

(** Lines 12-58, once the log is open. *)
Definition process_frames (frames : list frame) : outcome battery_result :=
  '(battery_data, voltages) ←! bat_loop frames [] [];
  max_voltage ←! if_nonempty py_max voltages;
  min_voltage ←! if_nonempty py_min voltages;
  mean_voltage ←! if_nonempty statistics_mean voltages;
  Returns (BatteryResult battery_data max_voltage min_voltage mean_voltage).

(** ** The world of main.py: files, clock, I/O faults *)

(** JSON documents, as [json.dump] writes and [jsonify] sends them.  An
    object keeps its members in insertion order, like a Python [dict]. *)
#[warnings="-register-all"]
Inductive json : Type :=
  | JNull
  | JNum (q : Qc)
  | JStr (s : string)
  | JArr (items : list json)
  | JObj (members : list (string * json)).

(** [d[key]] on a JSON object; [None] when there is no such member. *)
Fixpoint assoc (key : string) (members : list (string * json)) : option json :=
  match members with
  | [] => None
  | (k, v) :: members => if String.eqb k key then Some v else assoc key members
  end.

Definition jget (key : string) (doc : json) : option json :=
  match doc with
  | JObj members => assoc key members
  | _ => None
  end.

(** A file is seen through its reader: an uploaded log through pymavlink,
    a stored result through [json.load]. *)
Inductive file : Type :=
  | LogFile (frames : list frame)
  | JsonFile (doc : json).

(** Calls worth observing; [OsRemove] records whether the deletion
    succeeded. *)
Inductive event : Type :=
  | CallSafeRemoveFile (file_path : string)
  | OsRemove (file_path : string) (removed : bool)
  | Sleep (delay : Qc).

(** [faults] scripts the operating system: every call that creates, writes
    or deletes a file consumes the head of the list and fails when it is
    [true] (a locked file, a full disk, a missing permission); an empty
    script means no fault.  Paths name files literally. *)
Record world : Type := World {
  files : gmap string file;
  clock : Qc;
  faults : list bool;
  temp_serial : nat;
  trace : list event
}.

Definition M (A : Type) : Type := world → outcome A * world.

Definition ret {A} (a : A) : M A := λ w, (Returns a, w).
Definition raise {A} (e : exn) : M A := λ w, (Raises e, w).
Definition bind {A B} (x : M A) (f : A → M B) : M B :=
  λ w, match x w with
       | (Returns a, w') => f a w'
       | (Raises e, w') => (Raises e, w')
       end.
Definition lift {A} (x : outcome A) : M A := λ w, (x, w).

(** [try: body except Exception as e: handler(e)] *)
Definition try_except {A} (body : M A) (handler : exn → M A) : M A :=
  λ w, match body w with
       | (Returns a, w') => (Returns a, w')
       | (Raises e, w') => handler e w'
       end.

Declare Scope M_scope.
Delimit Scope M_scope with M.
Notation "x ←$ e1 ; e2" := (bind e1 (λ x, e2))
  (at level 20, e1 at level 100, e2 at level 200, only parsing) : M_scope.
Notation "e1 ;;$ e2" := (bind e1 (λ _, e2))
  (at level 100, e2 at level 200, right associativity, only parsing) : M_scope.
Local Open Scope M_scope.

Definition emit (ev : event) : M unit :=
  λ w, (Returns (), World (files w) (clock w) (faults w) (temp_serial w)
                      (trace w ++ [ev])).

(** The next scripted fault. *)
Definition next_fault : M bool :=
  λ w, match faults w with
       | [] => (Returns false, w)
       | b :: rest =>
           (Returns b, World (files w) (clock w) rest (temp_serial w) (trace w))
       end.

Definition set_files (fs : gmap string file) : M unit :=
  λ w, (Returns (), World fs (clock w) (faults w) (temp_serial w) (trace w)).

Definition get_files : M (gmap string file) := λ w, (Returns (files w), w).

(** [time.time()] *)
Definition time_time : M Qc := λ w, (Returns (clock w), w).

(** [time.sleep(delay)] *)
Definition time_sleep (delay : Qc) : M unit :=
  if Qc_ltb delay 0 then raise (ValueError "sleep length must be non-negative")
  else
    emit (Sleep delay);;$
    λ w, (Returns (), World (files w) (clock w + delay)%Qc (faults w)
                        (temp_serial w) (trace w)).

(** [os.remove(path)] *)
Definition os_remove (path : string) : M unit :=
  fault ←$ next_fault;
  fs ←$ get_files;
  if fault : bool then
    emit (OsRemove path false);;$ raise (OSError "file is in use")
  else match fs !! path with
       | Some _ => emit (OsRemove path true);;$ set_files (delete path fs)
       | None =>
           emit (OsRemove path false);;$
           raise (OSError "No such file or directory")
       end.

(** [os.path.exists(path)] *)
Definition os_path_exists (path : string) : M bool :=
  fs ←$ get_files; ret (bool_decide (is_Some (fs !! path))).

(** [os.path.join(a, b)] on POSIX, for [a] not ending in a slash. *)
Definition os_path_join (a b : string) : string :=
  if String.prefix "/" b then b else a +:+ "/" +:+ b.

(** Creating or overwriting a file. *)
Definition write_file (path : string) (content : file) : M unit :=
  fault ←$ next_fault;
  fs ←$ get_files;
  if fault : bool then raise (OSError "cannot write")
  else set_files (<[path := content]> fs).

(** [tempfile.NamedTemporaryFile(delete=False, suffix)]: a new empty file
    under a name not handed out before. *)
Definition NamedTemporaryFile (suffix : string) : M string :=
  name ←$ (λ w, (Returns ("/tmp/tmp" +:+ pretty (temp_serial w) +:+ suffix),
                 World (files w) (clock w) (faults w) (S (temp_serial w))
                   (trace w)));
  write_file name (LogFile []);;$
  ret name.

(** [mavutil.mavlink_connection(path, ...)]: the frames [recv_match] will
    deliver. *)
Definition mavlink_connection (path : string) : M (list frame) :=
  fs ←$ get_files;
  match fs !! path with
  | Some (LogFile frames) => ret frames
  | Some (JsonFile _) => raise (ValueError "not a log file")
  | None => raise (OSError "No such file or directory")
  end.

(** [with open(path, 'r') as f: json.load(f)] *)
Definition json_load (path : string) : M json :=
  fs ←$ get_files;
  match fs !! path with
  | Some (JsonFile doc) => ret doc
  | Some (LogFile _) => raise (ValueError "Expecting value")
  | None => raise (OSError "No such file or directory")
  end.

(** [int(x)] on a float: truncation toward zero. *)
Definition py_int (q : Qc) : Z := Z.quot (Qnum q) (Zpos (Qden q)).

(** [round(x, 2)]: the nearest multiple of 1/100, ties to the even one. *)
Definition round_half_even (q : Qc) : Z :=
  let f := Qfloor q in
  match (q - Qc_of_Z f ?= Q2Qc (1 # 2))%Qc with
  | Lt => f
  | Gt => (f + 1)%Z
  | Eq => if Z.even f then f else (f + 1)%Z
  end.

Definition round2 (q : Qc) : Qc :=
  (Qc_of_Z (round_half_even (q * Qc_of_Z 100)) / Qc_of_Z 100)%Qc.

Definition py_round2 (x : value) : outcome value :=
  match x with
  | VNum q => Returns (VNum (round2 q))
  | VStr _ => Raises (TypeError "type str doesn't define __round__ method")
  end.

(** [round(x, 2) if x is not None else None] *)
Definition round2_or_None (x : option value) : outcome (option value) :=
  match x with
  | Some v => r ←! py_round2 v; Returns (Some r)
  | None => Returns None
  end.

(** [xs[:limit]]: a negative bound counts from the end. *)
Definition slice_to {A} (limit : Z) (xs : list A) : list A :=
  if (0 <=? limit)%Z then take (Z.to_nat limit) xs
  else take (Z.to_nat (Z.of_nat (length xs) + limit)) xs.

Definition ascii_lower (c : ascii) : ascii :=
  let n := nat_of_ascii c in
  if (65 <=? n)%nat && (n <=? 90)%nat then ascii_of_nat (n + 32) else c.

(** [s.lower()], exact on ASCII; no other character lowers to a letter of
    ["true"]. *)
Fixpoint lower (s : string) : string :=
  match s with
  | EmptyString => EmptyString
  | String c s => String (ascii_lower c) (lower s)
  end.

(** [sorted(message_types)]: strings in code point order. *)
Definition sorted (message_types : gset string) : list string :=
  merge_sort String.le (elements message_types).

(** ** main.py *)

Definition DATA_STORAGE_DIR : string := "processed_data".

(** A Flask response: [jsonify(body), status]. *)
Record response : Type := Response {
  body : json;
  status : Z
}.

Definition jsonify (members : list (string * json)) (status : Z) : response :=
  Response (JObj members) status.

(** Lines 34-45.  [attempts] is what is left of [range(retries)]; after a
    failed attempt and the sleep, the loop goes on with the rest. *)
Fixpoint safe_remove_attempts (file_path : string) (delay : Qc)
    (attempts : nat) : M bool :=
  match attempts with
  | O => ret false
  | S attempts =>
      try_except
        (os_remove file_path;;$ ret true)
        (λ e, time_sleep delay;;$
              safe_remove_attempts file_path delay attempts)
  end.

Definition safe_remove_file (file_path : string) (retries : Z) (delay : Qc)
    : M bool :=
  emit (CallSafeRemoveFile file_path);;$
  safe_remove_attempts file_path delay (Z.to_nat retries).

(** The defaults [retries=1, delay=0.5]. *)
Definition safe_remove_file_default (file_path : string) : M bool :=
  safe_remove_file file_path 1 (Q2Qc (1 # 2)).

(** Lines 50 and 160: [os.path.join(DATA_STORAGE_DIR, f"{key}.json")]. *)
Definition data_path (key : string) : string :=
  os_path_join DATA_STORAGE_DIR (key +:+ ".json").

(** Lines 47-57. *)
Definition save_processed_data (key : string) (data : json) : M bool :=
  try_except
    (let file_path := data_path key in
     write_file file_path (JsonFile data);;$
     ret true)
    (λ e, ret false).

(** Lines 156-171. *)
Definition get_stored_data (key : string) : M response :=
  try_except
    (let file_path := data_path key in
     found ←$ os_path_exists file_path;
     if negb found then
       ret (jsonify [("error", JStr "Data not found")] 404)
     else
       data ←$ json_load file_path;
       ret (Response data 200))
    (λ e, ret (jsonify
                 [("error", JStr ("Error retrieving data: " +:+ str_exn e))]
                 500)).

(** The upload request: the part named [file] (if any) with the frames
    its bytes decode to, and the query string.  [arg_limit] is the
    outcome of [request.args.get('limit', default=None, type=int)]: the
    integer, or [None] when the parameter is absent or not an integer. *)
Record upload : Type := Upload {
  filename : string;
  content : list frame
}.

Record request : Type := Request {
  request_file : option upload;
  arg_key : option string;
  arg_limit : option Z;
  arg_full : option string
}.

Definition value_json (v : value) : json :=
  match v with
  | VNum q => JNum q
  | VStr s => JStr s
  end.

Definition option_json (v : option value) : json :=
  match v with
  | Some v => value_json v
  | None => JNull
  end.

Definition record_json (r : battery_record) : json :=
  JObj [("timestamp", JNum (r_timestamp r));
        ("Volt", value_json (r_Volt r));
        ("VoltR", option_json (r_VoltR r));
        ("Curr", value_json (r_Curr r));
        ("CurrTot", option_json (r_CurrTot r));
        ("EnrgTot", option_json (r_EnrgTot r));
        ("Temp", option_json (r_Temp r));
        ("Res", option_json (r_Res r));
        ("RemPct", option_json (r_RemPct r));
        ("H", option_json (r_H r));
        ("SH", option_json (r_SH r))].

Definition strings_json (l : list string) : json := JArr (JStr <$> l).
Definition records_json (l : list battery_record) : json :=
  JArr (record_json <$> l).

(** Lines 94-100: the set of type names of the frames read. *)
Fixpoint types_loop (frames : list frame) (message_types : gset string)
    : outcome (gset string) :=
  match frames with
  | [] => Returns message_types
  | BadRead e :: _ => Raises e
  | Frame m :: frames => types_loop frames (message_types ∪ {[get_type m]})
  end.

(** Battery.py lines 5-62; the [except] clause logs and re-raises. *)
Definition process_battery_data (log_path : string) : M battery_result :=
  frames ←$ mavlink_connection log_path;
  lift (process_frames frames).

(** Line 121. *)
Definition full_data (request : request) : bool :=
  String.eqb (lower (default "false" (arg_full request))) "true".

(** Lines 120-124. *)
Definition response_data (request : request) (all : list battery_record)
    : list battery_record :=
  match arg_limit request with
  | Some limit => if full_data request then all else slice_to limit all
  | None => all
  end.

(** Lines 127-134. *)
Definition stored_data (response_data : list battery_record)
    (stored_max stored_min stored_mean : option value)
    (stored_types : list string) (now : Qc) : json :=
  JObj [("battery_data", records_json response_data);
        ("max_voltage", option_json stored_max);
        ("min_voltage", option_json stored_min);
        ("mean_voltage", option_json stored_mean);
        ("message_types", strings_json stored_types);
        ("timestamp", JNum now)].

(** Lines 142-149. *)
Definition success_response (key : string)
    (response_data : list battery_record)
    (stored_max stored_min stored_mean : option value)
    (stored_types : list string) : response :=
  jsonify [("key", JStr key);
           ("battery_data", records_json response_data);
           ("max_voltage", option_json stored_max);
           ("min_voltage", option_json stored_min);
           ("mean_voltage", option_json stored_mean);
           ("message_types", strings_json stored_types)]
    200.

(** Lines 112-149: what follows the cleanup. *)
Definition upload_respond (request : request) (key : string)
    (message_types : gset string) (result : battery_result) : M response :=
  match battery_data result with
  | [] =>
      ret (jsonify [("error", JStr "No BAT messages found in the log");
                    ("message_types", strings_json (sorted message_types))]
             400)
  | _ =>
      let response_data := response_data request (battery_data result) in
      stored_max ←$ lift (round2_or_None (max_voltage result));
      stored_min ←$ lift (round2_or_None (min_voltage result));
      stored_mean ←$ lift (round2_or_None (mean_voltage result));
      let stored_types := sorted message_types in
      now ←$ time_time;
      saved ←$ save_processed_data key
                 (stored_data response_data stored_max stored_min stored_mean
                    stored_types now);
      if negb saved then
        ret (jsonify [("error", JStr "Failed to save processed data")] 500)
      else
        ret (success_response key response_data stored_max stored_min
               stored_mean stored_types)
  end.

(** Lines 86-149: the body of the second [try]. *)
Definition upload_body (request : request) (key log_path : string)
    : M response :=
  frames ←$ mavlink_connection log_path;
  message_types ←$ lift (types_loop frames ∅);
  result ←$ process_battery_data log_path;
  safe_remove_file_default log_path;;$
  upload_respond request key message_types result.

(** Lines 76-84: the upload is written to a new temporary file; the
    result is its path, or the response of the [except] clause. *)
Definition save_upload (file : upload) : M (response + string) :=
  try_except
    (log_path ←$ NamedTemporaryFile ".bin";
     write_file log_path (LogFile (content file));;$
     ret (inr log_path))
    (λ e, ret (inl (jsonify
                      [("error", JStr ("Failed to save file: " +:+ str_exn e))]
                      500))).

(** Lines 59-154. *)
Definition upload_bin (request : request) : M response :=
  match request_file request with
  | None => ret (jsonify [("error", JStr "No file part")] 400)
  | Some file =>
      if String.eqb (filename file) EmptyString then
        ret (jsonify [("error", JStr "No selected file")] 400)
      else
        now ←$ time_time;
        let key := default (pretty (py_int now)) (arg_key request) in
        saved ←$ save_upload file;
        match saved with
        | inl failure => ret failure
        | inr log_path =>
            try_except
              (upload_body request key log_path)
              (λ e,
                 safe_remove_file_default log_path;;$
                 ret (jsonify
                        [("error",
                          JStr ("Error processing file: " +:+ str_exn e))]
                        500))
        end
  end.

(** * Specification vocabulary and sample data *)

(** ** Vocabulary for Battery.py *)

Definition is_BAT (m : msg) : Prop := get_type m = "BAT".
Global Instance is_BAT_dec m : Decision (is_BAT m).
Proof. unfold is_BAT. apply _. Defined.

(** The [Volt] field of a message when it is a number. *)
Definition volt_of (m : msg) : option Qc :=
  match to_dict m !! "Volt" with
  | Some (VNum q) => Some q
  | _ => None
  end.

(** What one record holds, read off the message it was built from. *)
Definition record_of_message (m : msg) (r : battery_record) : Prop :=
  (∃ TimeUS, to_dict m !! "TimeUS" = Some (VNum TimeUS) ∧
             r_timestamp r = (TimeUS / Qc_of_Z (10 ^ 6))%Qc) ∧
  to_dict m !! "Volt" = Some (r_Volt r) ∧
  to_dict m !! "Curr" = Some (r_Curr r) ∧
  r_VoltR r = to_dict m !! "VoltR" ∧
  r_CurrTot r = to_dict m !! "CurrTot" ∧
  r_EnrgTot r = to_dict m !! "EnrgTot" ∧
  r_Temp r = to_dict m !! "Temp" ∧
  r_Res r = to_dict m !! "Res" ∧
  r_RemPct r = to_dict m !! "RemPct" ∧
  r_H r = to_dict m !! "H" ∧
  r_SH r = to_dict m !! "SH".

(** A BAT message the loop can turn into a record and whose voltage can
    be averaged: numeric [TimeUS] and [Volt], and a [Curr]. *)
Definition bat_complete (m : msg) : Prop :=
  (∃ TimeUS, to_dict m !! "TimeUS" = Some (VNum TimeUS)) ∧
  is_Some (volt_of m) ∧ is_Some (to_dict m !! "Curr").

Definition sum_Qc (l : list Qc) : Qc := foldr Qcplus 0%Qc l.

Definition arithmetic_mean (l : list Qc) : Qc :=
  (sum_Qc l / Qc_of_nat (length l))%Qc.

Definition is_maximum (x : Qc) (l : list Qc) : Prop :=
  x ∈ l ∧ ∀ y, y ∈ l → (y <= x)%Qc.

Definition is_minimum (x : Qc) (l : list Qc) : Prop :=
  x ∈ l ∧ ∀ y, y ∈ l → (x <= y)%Qc.

(** ** Sample data *)

Definition sample_bat (TimeUS Volt : Q) : msg :=
  Msg "BAT" (list_to_map [("TimeUS", VNum (Q2Qc TimeUS));
                          ("Volt", VNum (Q2Qc Volt));
                          ("Curr", VNum (Q2Qc 1.5))]).

Definition sample_gps : msg :=
  Msg "GPS" (list_to_map [("TimeUS", VNum (Q2Qc 1500000)); ("Spd", VNum (Q2Qc 3))]).

Definition sample_fmt : msg := Msg "FMT" ∅.

Definition sample_msgs : list msg :=
  [sample_fmt; sample_bat 1000000 12.6; sample_gps; sample_bat 2000000 12.4;
   sample_bat 3500000 12.5].

Definition sample_path : string := "/tmp/flight.bin".

Definition sample_world : world :=
  World {[ sample_path := LogFile (Frame <$> sample_msgs) ]}
    (Q2Qc 1700000000.5) [] 0 [].

(** ** Vocabulary for main.py: deleting the temporary file *)

(** The events of [k] failed attempts, each followed by its sleep. *)
Definition failed_attempts (file_path : string) (delay : Qc) (k : nat)
    : list event :=
  concat (replicate k [OsRemove file_path false; Sleep delay]).

(** The number of [os.remove] calls in a trace. *)
Definition is_deletion (ev : event) : bool :=
  match ev with OsRemove _ _ => true | _ => false end.

Definition deletion_attempts (tr : list event) : nat :=
  length (filter is_deletion tr).

(** ** Vocabulary for main.py: storing and retrieving results *)


Definition not_found : response :=
  jsonify [("error", JStr "Data not found")] 404.

(** ** Vocabulary for main.py: the upload handler *)

Definition is_cleanup_call (ev : event) : bool :=
  match ev with CallSafeRemoveFile _ => true | _ => false end.

(** The calls of [safe_remove_file] in a trace, in order. *)
Definition cleanup_calls (tr : list event) : list event :=
  filter is_cleanup_call tr.

(** The set of type names of a list of messages. *)
Definition type_names (msgs : list msg) : gset string :=
  list_to_set (get_type <$> msgs).

Definition no_bat_response (message_types : list string) : response :=
  jsonify [("error", JStr "No BAT messages found in the log");
           ("message_types", strings_json message_types)]
    400.

Definition processing_error (e : exn) : response :=
  jsonify [("error", JStr ("Error processing file: " +:+ str_exn e))] 500.

Definition save_error : response :=
  jsonify [("error", JStr "Failed to save processed data")] 500.

(** ** Sample uploads *)

Definition upload_world : world := World ∅ (Q2Qc 1700000000.5) [] 0 [].

Definition sample_upload : upload := Upload "flight.bin" (Frame <$> sample_msgs).

Definition sample_request : request :=
  Request (Some sample_upload) (Some "flight1") (Some 2%Z) None.

Definition no_bat_msgs : list msg := [sample_fmt; sample_gps; sample_gps].

Definition no_bat_upload : upload := Upload "ground.bin" (Frame <$> no_bat_msgs).

Definition no_bat_request : request :=
  Request (Some no_bat_upload) (Some "ground1") None None.

Definition negative_limit_request : request :=
  Request (Some sample_upload) (Some "flight1") (Some (-1)%Z) None.

(** A world in which the file at [sample_path] is locked during the next
    deletion attempt. *)
Definition locked_world : world :=
  World {[ sample_path := LogFile (Frame <$> sample_msgs) ]}
    (Q2Qc 1700000000.5) [true] 0 [].

(** * Properties *)

(** ** Battery.py *)

Lemma getattr_or_None_lookup m name :
  getattr_or_None m name = Returns (to_dict m !! name).
Proof.
  unfold getattr_or_None, hasattr, getattr.
  case_bool_decide as Hs.
  - by destruct Hs as [v ->].
  - by destruct (to_dict m !! name); [destruct Hs; eauto|].
Qed.

Lemma bat_record_inv m r :
  bat_record m = Returns r → record_of_message m r.
Proof.
  unfold bat_record, record_of_message.
  rewrite !getattr_or_None_lookup. unfold getattr. simpl.
  destruct (to_dict m !! "TimeUS") as [[t|?]|]; simpl; try done.
  destruct (to_dict m !! "Volt") as [v|]; simpl; try done.
  destruct (to_dict m !! "Curr") as [c|]; simpl; try done.
  intros [= <-]. simpl. split_and!; eauto.
Qed.

Lemma bat_record_returns m :
  returns (bat_record m) = true ↔
  (∃ TimeUS, to_dict m !! "TimeUS" = Some (VNum TimeUS)) ∧
  is_Some (to_dict m !! "Volt") ∧ is_Some (to_dict m !! "Curr").
Proof.
  unfold bat_record. rewrite !getattr_or_None_lookup. unfold getattr. simpl.
  destruct (to_dict m !! "TimeUS") as [[t|?]|]; simpl;
    [|split; [done|by intros [[? [=]] _]]|split; [done|by intros [[? [=]] _]]].
  destruct (to_dict m !! "Volt") as [v|]; simpl;
    [|split; [done|by intros (_ & [? [=]] & _)]].
  destruct (to_dict m !! "Curr") as [c|]; simpl;
    [|split; [done|by intros (_ & _ & [? [=]])]].
  split; [|done]. intros _. eauto.
Qed.

Lemma is_BAT_eqb m : String.eqb (get_type m) "BAT" = bool_decide (is_BAT m).
Proof.
  unfold is_BAT. destruct (String.eqb_spec (get_type m) "BAT").
  - by rewrite bool_decide_eq_true_2.
  - by rewrite bool_decide_eq_false_2.
Qed.

(** The loop returns exactly on a log without read failures all of whose
    BAT messages yield a record; it has then appended one record and one
    voltage per BAT message, in order. *)
Lemma bat_loop_returns frames bd0 vs0 bd vs :
  bat_loop frames bd0 vs0 = Returns (bd, vs) ↔
  ∃ msgs records,
    frames = Frame <$> msgs ∧
    Forall2 (λ m r, bat_record m = Returns r) (filter is_BAT msgs) records ∧
    bd = bd0 ++ records ∧ vs = vs0 ++ (r_Volt <$> records).
Proof.
  revert bd0 vs0. induction frames as [|[m|e] frames IH]; intros bd0 vs0; simpl.
  - split.
    + intros [= <- <-]. exists [], []. rewrite !app_nil_r. by repeat constructor.
    + intros (msgs & records & Hf & HF & -> & ->).
      destruct msgs; [|done]. rewrite filter_nil in HF.
      apply Forall2_nil_inv_l in HF as ->. by rewrite !app_nil_r.
  - rewrite is_BAT_eqb. case_bool_decide as Hbat.
    + split.
      * destruct (getattr m "Volt") as [voltage|] eqn:Hv; simpl; [|done].
        destruct (bat_record m) as [record|] eqn:Hr; simpl; [|done].
        intros (msgs & records & -> & HF & -> & ->)%IH.
        exists (m :: msgs), (record :: records).
        rewrite filter_cons_True by done.
        pose proof (bat_record_inv _ _ Hr) as (_ & Hvolt & _).
        unfold getattr in Hv. rewrite Hvolt in Hv. injection Hv as <-.
        split_and!; [done|by constructor|..]; simpl;
          by rewrite <- app_assoc.
      * intros (msgs & records & Hf & HF & -> & ->).
        destruct msgs as [|m' msgs]; [done|]. injection Hf as <- ->.
        rewrite filter_cons_True in HF by done.
        apply Forall2_cons_inv_l in HF as (record & records' & Hr & HF & ->).
        pose proof (bat_record_inv _ _ Hr) as (_ & Hvolt & _).
        unfold getattr. rewrite Hvolt. simpl. rewrite Hr. simpl.
        apply IH. exists msgs, records'.
        split_and!; [done|done|..]; simpl; by rewrite <- app_assoc.
    + split.
      * intros (msgs & records & -> & HF & -> & ->)%IH.
        exists (m :: msgs), records. by rewrite filter_cons_False.
      * intros (msgs & records & Hf & HF & -> & ->).
        destruct msgs as [|m' msgs]; [done|]. injection Hf as <- ->.
        rewrite filter_cons_False in HF by done.
        apply IH. by exists msgs, records.
  - split; [done|]. intros (msgs & ? & Hf & _). by destruct msgs.
Qed.

Lemma Qc_ltb_lt x y : Qc_ltb x y = true ↔ (x < y)%Qc.
Proof.
  unfold Qc_ltb. rewrite Qclt_alt. by destruct (x ?= y)%Qc.
Qed.

Lemma Qc_ltb_ge x y : Qc_ltb x y = false ↔ (y <= x)%Qc.
Proof.
  rewrite Qcle_ngt, <- Qc_ltb_lt. by destruct (Qc_ltb x y).
Qed.

Lemma volt_of_Some m q : volt_of m = Some q ↔ to_dict m !! "Volt" = Some (VNum q).
Proof.
  unfold volt_of. destruct (to_dict m !! "Volt") as [[?|?]|]; naive_solver.
Qed.

Lemma complete_records bats :
  Forall bat_complete bats →
  ∃ records,
    Forall2 (λ m r, bat_record m = Returns r) bats records ∧
    r_Volt <$> records = VNum <$> omap volt_of bats.
Proof.
  induction 1 as [|m bats (Ht & [q Hq] & Hc) _ (records & HF & Hv)].
  - by exists [].
  - destruct (bat_record m) as [r|e] eqn:Hr.
    + exists (r :: records). split; [by constructor|].
      apply bat_record_inv in Hr as (_ & Hvolt & _).
      rewrite fmap_cons, Hv. cbn [omap list_omap]. rewrite Hq.
      apply volt_of_Some in Hq. rewrite Hvolt in Hq. by injection Hq as ->.
    + assert (returns (bat_record m) = true) as Hret.
      { apply bat_record_returns. split_and!; [done| |done].
        apply volt_of_Some in Hq. eauto. }
      by rewrite Hr in Hret.
Qed.

Lemma is_maximum_singleton x : is_maximum x [x].
Proof.
  split; [by left|]. intros y ->%list_elem_of_singleton. apply Qcle_refl.
Qed.

Lemma is_minimum_singleton x : is_minimum x [x].
Proof.
  split; [by left|]. intros y ->%list_elem_of_singleton. apply Qcle_refl.
Qed.

(** Replacing the running best by a strictly greater item, or keeping it
    against an item that is not greater. *)
Lemma is_maximum_replace best item rest mx :
  (best < item)%Qc → is_maximum mx (item :: rest) →
  is_maximum mx (best :: item :: rest).
Proof.
  intros Hlt [Hmem Hmax]. split; [by right|].
  intros y [->|Hy]%elem_of_cons; [|by apply Hmax].
  eapply Qcle_trans; [by apply Qclt_le_weak|]. apply Hmax. by left.
Qed.

Lemma is_maximum_keep best item rest mx :
  (item <= best)%Qc → is_maximum mx (best :: rest) →
  is_maximum mx (best :: item :: rest).
Proof.
  intros Hle [Hmem Hmax]. split.
  - apply elem_of_cons in Hmem as [->|?]; [by left|by do 2 right].
  - intros y [->|[->|Hy]%elem_of_cons]%elem_of_cons.
    + apply Hmax. by left.
    + eapply Qcle_trans; [done|]. apply Hmax. by left.
    + apply Hmax. by right.
Qed.

Lemma is_minimum_replace best item rest mn :
  (item < best)%Qc → is_minimum mn (item :: rest) →
  is_minimum mn (best :: item :: rest).
Proof.
  intros Hlt [Hmem Hmin]. split; [by right|].
  intros y [->|Hy]%elem_of_cons; [|by apply Hmin].
  eapply Qcle_trans; [|by apply Qclt_le_weak]. apply Hmin. by left.
Qed.

Lemma is_minimum_keep best item rest mn :
  (best <= item)%Qc → is_minimum mn (best :: rest) →
  is_minimum mn (best :: item :: rest).
Proof.
  intros Hle [Hmem Hmin]. split.
  - apply elem_of_cons in Hmem as [->|?]; [by left|by do 2 right].
  - intros y [->|[->|Hy]%elem_of_cons]%elem_of_cons.
    + apply Hmin. by left.
    + eapply Qcle_trans; [|done]. apply Hmin. by left.
    + apply Hmin. by right.
Qed.

(** [max] and [min] over numbers: the running best is the extremum of
    what has been seen. *)
Lemma extremum_gt_numeric best rest :
  ∃ mx, extremum py_gt (VNum best) (VNum <$> rest) = Returns (VNum mx) ∧
        is_maximum mx (best :: rest).
Proof.
  revert best. induction rest as [|item rest IH]; intros best.
  - exists best. split; [done|apply is_maximum_singleton].
  - rewrite fmap_cons. cbn [extremum].
    change (py_gt (VNum item) (VNum best)) with (Returns (Qc_ltb best item)).
    cbn [obind].
    destruct (Qc_ltb best item) eqn:Hlt.
    + destruct (IH item) as (mx & -> & Hmx). exists mx. split; [done|].
      apply is_maximum_replace; [by apply Qc_ltb_lt|done].
    + destruct (IH best) as (mx & -> & Hmx). exists mx. split; [done|].
      apply is_maximum_keep; [by apply Qc_ltb_ge|done].
Qed.

Lemma extremum_lt_numeric best rest :
  ∃ mn, extremum py_lt (VNum best) (VNum <$> rest) = Returns (VNum mn) ∧
        is_minimum mn (best :: rest).
Proof.
  revert best. induction rest as [|item rest IH]; intros best.
  - exists best. split; [done|apply is_minimum_singleton].
  - rewrite fmap_cons. cbn [extremum py_lt obind].
    destruct (Qc_ltb item best) eqn:Hlt.
    + destruct (IH item) as (mn & -> & Hmn). exists mn. split; [done|].
      apply is_minimum_replace; [by apply Qc_ltb_lt|done].
    + destruct (IH best) as (mn & -> & Hmn). exists mn. split; [done|].
      apply is_minimum_keep; [by apply Qc_ltb_ge|done].
Qed.

Lemma exact_sum_numeric l : exact_sum (VNum <$> l) = Returns (sum_Qc l).
Proof.
  induction l as [|q l IH]; [done|].
  rewrite fmap_cons. cbn [exact_sum]. by rewrite IH.
Qed.

(** A list [statistics.mean] accepts holds numbers only. *)
Lemma exact_sum_returns xs t :
  exact_sum xs = Returns t → ∃ l, xs = VNum <$> l.
Proof.
  revert t. induction xs as [|[q|s] xs IH]; intros t; simpl; [by exists []| |done].
  destruct (exact_sum xs) as [t'|] eqn:E; [|done].
  destruct (IH t' eq_refl) as [l ->]. by exists (q :: l).
Qed.

(** The three aggregates of a non-empty list of numeric voltages. *)
Lemma aggregates_numeric v l :
  ∃ mx mn,
    if_nonempty py_max (VNum <$> v :: l) = Returns (Some (VNum mx)) ∧
    if_nonempty py_min (VNum <$> v :: l) = Returns (Some (VNum mn)) ∧
    if_nonempty statistics_mean (VNum <$> v :: l) =
      Returns (Some (VNum (arithmetic_mean (v :: l)))) ∧
    is_maximum mx (v :: l) ∧ is_minimum mn (v :: l).
Proof.
  destruct (extremum_gt_numeric v l) as (mx & Hmx & ?).
  destruct (extremum_lt_numeric v l) as (mn & Hmn & ?).
  exists mx, mn. split_and!; try done.
  - rewrite fmap_cons. cbn [if_nonempty py_max]. by rewrite Hmx.
  - rewrite fmap_cons. cbn [if_nonempty py_min]. by rewrite Hmn.
  - rewrite fmap_cons. cbn [if_nonempty statistics_mean].
    rewrite <- (fmap_cons VNum v l), exact_sum_numeric. cbn [obind].
    by rewrite length_fmap.
Qed.

Global Instance Frame_inj : Inj (=) (=) Frame.
Proof. by intros m1 m2 [= ->]. Qed.

(** What a returning [process_frames] has computed. *)
Lemma process_frames_inv frames result :
  process_frames frames = Returns result →
  ∃ msgs,
    frames = Frame <$> msgs ∧
    Forall2 (λ m r, bat_record m = Returns r)
      (filter is_BAT msgs) (battery_data result) ∧
    let voltages := r_Volt <$> battery_data result in
    bat_loop frames [] [] = Returns (battery_data result, voltages) ∧
    if_nonempty py_max voltages = Returns (max_voltage result) ∧
    if_nonempty py_min voltages = Returns (min_voltage result) ∧
    if_nonempty statistics_mean voltages = Returns (mean_voltage result).
Proof.
  unfold process_frames.
  destruct (bat_loop frames [] []) as [[bd vs]|] eqn:Hloop; [|done].
  pose proof Hloop as (msgs & records & -> & HF & -> & ->)%bat_loop_returns.
  cbn [obind app].
  destruct (if_nonempty py_max _) as [mx|] eqn:Hmx; [|done].
  destruct (if_nonempty py_min _) as [mn|] eqn:Hmn; [|done].
  destruct (if_nonempty statistics_mean _) as [mean|] eqn:Hmean; [|done].
  intros [= <-]. exists msgs. by cbn.
Qed.

Lemma process_battery_data_inv log_path w result w' :
  process_battery_data log_path w = (Returns result, w') →
  w' = w ∧
  ∃ frames, files w !! log_path = Some (LogFile frames) ∧
            process_frames frames = Returns result.
Proof.
  unfold process_battery_data, bind, mavlink_connection, get_files, lift.
  cbn. destruct (files w !! log_path) as [[frames|doc]|]; cbn; try done.
  intros [= Hr <-]. eauto.
Qed.

Lemma process_battery_data_open log_path w frames :
  files w !! log_path = Some (LogFile frames) →
  process_battery_data log_path w = (process_frames frames, w).
Proof.
  intros Hf.
  unfold process_battery_data, bind, mavlink_connection, get_files, lift.
  cbn. by rewrite Hf.
Qed.

(** On a readable log with complete BAT messages the function returns,
    and its aggregates are those of the numeric voltages. *)
Lemma process_frames_complete msgs :
  Forall bat_complete (filter is_BAT msgs) →
  let volts := omap volt_of (filter is_BAT msgs) in
  ∃ result,
    process_frames (Frame <$> msgs) = Returns result ∧
    Forall2 (λ m r, bat_record m = Returns r)
      (filter is_BAT msgs) (battery_data result) ∧
    r_Volt <$> battery_data result = VNum <$> volts ∧
    if_nonempty py_max (VNum <$> volts) = Returns (max_voltage result) ∧
    if_nonempty py_min (VNum <$> volts) = Returns (min_voltage result) ∧
    if_nonempty statistics_mean (VNum <$> volts) =
      Returns (mean_voltage result).
Proof.
  intros Hc. cbv zeta.
  destruct (complete_records _ Hc) as (records & HF & Hv).
  assert (bat_loop (Frame <$> msgs) [] [] = Returns (records, r_Volt <$> records))
    as Hloop.
  { apply bat_loop_returns. by exists msgs, records. }
  unfold process_frames. rewrite Hloop. cbn [obind]. rewrite Hv.
  destruct (omap volt_of (filter is_BAT msgs)) as [|v l].
  - cbn. eexists. by split_and!.
  - destruct (aggregates_numeric v l) as (mx & mn & -> & -> & -> & _).
    cbn [obind]. eexists. by split_and!.
Qed.



Lemma sample_bat_complete TimeUS Volt : bat_complete (sample_bat TimeUS Volt).
Proof. split_and!; eexists; reflexivity. Qed.


(** C2.  Whenever [process_battery_data] returns, the log was read to its
    end, [battery_data] holds exactly one record per BAT message, in stream
    order, the [voltages] list the loop built holds the [Volt] value of
    each BAT message in the same order and is what the aggregates are
    computed from; messages of other types contribute nothing. *)
Theorem process_battery_data_one_record_per_BAT log_path w result w' :
  process_battery_data log_path w = (Returns result, w') →
  ∃ msgs voltages,
    files w !! log_path = Some (LogFile (Frame <$> msgs)) ∧
    bat_loop (Frame <$> msgs) [] [] = Returns (battery_data result, voltages) ∧
    length (battery_data result) = length (filter is_BAT msgs) ∧
    Forall2 (λ m r, bat_record m = Returns r)
      (filter is_BAT msgs) (battery_data result) ∧
    length voltages = length (filter is_BAT msgs) ∧
    Forall2 (λ m v, to_dict m !! "Volt" = Some v)
      (filter is_BAT msgs) voltages ∧
    if_nonempty py_max voltages = Returns (max_voltage result) ∧
    if_nonempty py_min voltages = Returns (min_voltage result) ∧
    if_nonempty statistics_mean voltages = Returns (mean_voltage result).
Proof.
  intros (-> & frames & Hfile & Hres)%process_battery_data_inv.
  apply process_frames_inv in Hres
    as (msgs & -> & HF & Hloop & Hmx & Hmn & Hmean).
  exists msgs, (r_Volt <$> battery_data result).
  split_and!; try done.
  - symmetry. by eapply Forall2_length.
  - rewrite length_fmap. symmetry. by eapply Forall2_length.
  - apply Forall2_fmap_r. eapply Forall2_impl; [exact HF|].
    intros m r Hr. by apply bat_record_inv in Hr as (_ & ? & _).
Qed.

Lemma process_battery_data_one_record_per_BAT_witness :
  ∃ result,
    process_battery_data sample_path sample_world
      = (Returns result, sample_world) ∧
    length (battery_data result) = 3.
Proof.
  destruct (process_frames (Frame <$> sample_msgs)) as [result|] eqn:Hres;
    [|by vm_compute in Hres].
  assert (process_battery_data sample_path sample_world
          = (Returns result, sample_world)) as Hrun.
  { rewrite (process_battery_data_open _ _ (Frame <$> sample_msgs))
      by reflexivity.
    by rewrite Hres. }
  exists result. split; [done|].
  destruct (process_battery_data_one_record_per_BAT _ _ _ _ Hrun)
    as (msgs & voltages & Hfile & _ & Hlen & _).
  change (files sample_world !! sample_path)
    with (Some (LogFile (Frame <$> sample_msgs))) in Hfile.
  injection Hfile as Hmsgs.
  assert (sample_msgs = msgs) as <-
    by (apply (inj (fmap Frame)); exact Hmsgs).
  exact Hlen.
Defined.






(** ** main.py: deleting the temporary file *)

Lemma os_remove_cases path w :
  (∃ w', os_remove path w = (Returns (), w') ∧
         trace w' = trace w ++ [OsRemove path true] ∧
         files w' = delete path (files w)) ∨
  (∃ e w', os_remove path w = (Raises e, w') ∧
           trace w' = trace w ++ [OsRemove path false] ∧
           files w' = files w).
Proof.
  unfold os_remove, bind, next_fault, get_files, emit, raise, set_files.
  destruct (faults w) as [|[] rest]; cbn;
    try (right; by eauto);
    destruct (files w !! path); cbn; try (right; by eauto); left; by eauto.
Qed.

Lemma time_sleep_returns delay w :
  (0 <= delay)%Qc →
  ∃ w', time_sleep delay w = (Returns (), w') ∧
        trace w' = trace w ++ [Sleep delay] ∧ files w' = files w.
Proof.
  intros Hd. unfold time_sleep. apply Qc_ltb_ge in Hd as ->.
  unfold bind, emit. cbn. by eauto.
Qed.

Lemma safe_remove_attempts_spec file_path delay n w :
  (0 <= delay)%Qc →
  ∃ (b : bool) w' k,
    safe_remove_attempts file_path delay n w = (Returns b, w') ∧
    trace w' = trace w ++ failed_attempts file_path delay k
                     ++ (if b then [OsRemove file_path true] else []) ∧
    (if b then k < n ∧ files w' !! file_path = None else k = n).
Proof.
  intros Hd. revert w. induction n as [|n IH]; intros w.
  - exists false, w, 0. by rewrite !app_nil_r.
  - cbn [safe_remove_attempts]. unfold try_except, bind at 1.
    destruct (os_remove_cases file_path w)
      as [(w1 & -> & Htr & Hfs)|(e & w1 & -> & Htr & Hfs)].
    + exists true, w1, 0. cbn. split; [done|]. split; [done|].
      split; [lia|]. rewrite Hfs. apply lookup_delete_eq.
    + unfold bind.
      destruct (time_sleep_returns delay w1 Hd) as (w2 & -> & Htr2 & Hfs2).
      destruct (IH w2) as (b & w' & k & -> & Htr' & Hb).
      exists b, w', (S k). split; [done|]. split.
      * rewrite Htr', Htr2, Htr. unfold failed_attempts. cbn.
        by rewrite <- !app_assoc.
      * destruct b; [|lia]. split; [lia|]. apply Hb.
Qed.

Lemma deletion_attempts_failed file_path delay k :
  deletion_attempts (failed_attempts file_path delay k) = k.
Proof.
  unfold deletion_attempts, failed_attempts.
  induction k as [|k IH]; [done|]. cbn [replicate concat app].
  rewrite filter_cons_True by done. rewrite filter_cons_False by (by intros []).
  cbn. by rewrite IH.
Qed.

Lemma deletion_attempts_app tr1 tr2 :
  deletion_attempts (tr1 ++ tr2) = deletion_attempts tr1 + deletion_attempts tr2.
Proof. unfold deletion_attempts. by rewrite filter_app, length_app. Qed.

(** C8.  With [retries ≥ 1] (and a sleep length that is not negative, as
    the default is) [safe_remove_file] never raises; it makes at most
    [retries] deletion attempts; it returns [True] right after the first
    attempt that succeeds, which is then the last one, and [False] after
    [retries] attempts that all failed. *)
Theorem safe_remove_file_bounded file_path retries delay w :
  (1 ≤ retries)%Z →
  (0 <= delay)%Qc →
  ∃ (b : bool) w' new,
    safe_remove_file file_path retries delay w = (Returns b, w') ∧
    trace w' = trace w ++ CallSafeRemoveFile file_path :: new ∧
    (Z.of_nat (deletion_attempts new) ≤ retries)%Z ∧
    ∃ k, new = failed_attempts file_path delay k
                 ++ (if b then [OsRemove file_path true] else []) ∧
         (if b then files w' !! file_path = None else Z.of_nat k = retries).
Proof.
  intros Hr Hd. unfold safe_remove_file, bind, emit. cbn.
  match goal with |- context [safe_remove_attempts _ _ _ ?w0] =>
    destruct (safe_remove_attempts_spec file_path delay (Z.to_nat retries) w0 Hd)
      as (b & w' & k & -> & Htr & Hb)
  end.
  cbn in Htr. exists b, w', (failed_attempts file_path delay k
                             ++ (if b then [OsRemove file_path true] else [])).
  split; [done|]. split; [by rewrite Htr, <- app_assoc|].
  rewrite deletion_attempts_app, deletion_attempts_failed. split.
  - destruct b.
    + change (deletion_attempts [OsRemove file_path true]) with 1%nat. lia.
    + change (deletion_attempts []) with 0%nat. lia.
  - exists k. split; [done|]. destruct b; [apply Hb|]. subst k. lia.
Qed.

(** ** main.py: storing and retrieving results *)



Lemma prefix_slash c s :
  String.prefix "/" (String c s) = bool_decide (c = "/"%char).
Proof.
  change (String.prefix "/" (String c s))
    with (if Ascii.ascii_dec "/" c then String.prefix EmptyString s else false).
  destruct (Ascii.ascii_dec "/" c) as [<-|Hne].
  - by destruct s.
  - by rewrite bool_decide_eq_false_2.
Qed.

Lemma data_path_cases key :
  (String.prefix "/" key = true ∧ data_path key = key +:+ ".json") ∨
  (String.prefix "/" key = false ∧
   data_path key = "processed_data/" +:+ key +:+ ".json").
Proof.
  unfold data_path, os_path_join. destruct key as [|c key]; [by right|].
  change (String c key +:+ ".json") with (String c (key +:+ ".json")).
  rewrite !prefix_slash. case_bool_decide; [by left|by right].
Qed.


Lemma write_file_cases path content w :
  ∃ w', trace w' = trace w ∧ clock w' = clock w ∧
        ((write_file path content w = (Returns (), w') ∧
          files w' = <[path := content]> (files w)) ∨
         (∃ e, write_file path content w = (Raises e, w') ∧
               files w' = files w)).
Proof.
  unfold write_file, bind, next_fault, get_files, set_files, raise.
  destruct (faults w) as [|[] rest]; cbn.
  - exists (World (<[path:=content]> (files w)) (clock w) (faults w)
              (temp_serial w) (trace w)).
    split_and!; [done|done|by left].
  - eexists (World _ _ _ _ _). split_and!; [| |right; eexists; split; done];
      done.
  - eexists (World _ _ _ _ _). split_and!; [| |left; split; done]; done.
Qed.

Lemma save_processed_data_cases key data w :
  ∃ w', trace w' = trace w ∧ clock w' = clock w ∧
        ((save_processed_data key data w = (Returns true, w') ∧
          files w' = <[data_path key := JsonFile data]> (files w)) ∨
         (save_processed_data key data w = (Returns false, w') ∧
          files w' = files w)).
Proof.
  unfold save_processed_data, try_except, bind. cbv zeta.
  destruct (write_file_cases (data_path key) (JsonFile data) w)
    as (w' & Htr & Hck & [[Hw Hfs]|(e & Hw & Hfs)]);
    rewrite Hw; cbn; exists w'; split_and!; try done; [by left|by right].
Qed.

Lemma get_stored_data_lookup key w :
  get_stored_data key w =
    (Returns match files w !! data_path key with
             | None => not_found
             | Some (JsonFile data) => Response data 200
             | Some (LogFile _) =>
                 jsonify [("error",
                           JStr ("Error retrieving data: " +:+ "Expecting value"))]
                   500
             end, w).
Proof.
  unfold get_stored_data, try_except, bind, os_path_exists, get_files,
    json_load.
  cbn. destruct (files w !! data_path key) as [[frames|doc]|] eqn:E; cbn;
    by rewrite ?E.
Qed.



(** ** main.py: the upload handler *)

Lemma types_loop_returns msgs acc :
  types_loop (Frame <$> msgs) acc = Returns (acc ∪ type_names msgs).
Proof.
  revert acc. induction msgs as [|m msgs IH]; intros acc.
  - cbn. f_equal. unfold type_names. cbn. set_solver.
  - rewrite fmap_cons. cbn [types_loop]. rewrite IH. f_equal.
    unfold type_names. rewrite fmap_cons. cbn [list_to_set].
    apply leibniz_equiv. by rewrite (assoc_L (∪)).
Qed.

Lemma types_loop_inv frames acc types :
  types_loop frames acc = Returns types → ∃ msgs, frames = Frame <$> msgs.
Proof.
  revert acc. induction frames as [|[m|e] frames IH]; intros acc; cbn.
  - by exists [].
  - intros [msgs ->]%IH. by exists (m :: msgs).
  - done.
Qed.



Lemma cleanup_calls_app tr1 tr2 :
  cleanup_calls (tr1 ++ tr2) = cleanup_calls tr1 ++ cleanup_calls tr2.
Proof. apply filter_app. Qed.

Lemma cleanup_calls_failed file_path delay k :
  cleanup_calls (failed_attempts file_path delay k) = [].
Proof. induction k as [|k IH]; [done|]. exact IH. Qed.

(** The default cleanup never raises and is one call. *)
Lemma safe_remove_file_default_spec file_path w :
  ∃ (b : bool) w' new,
    safe_remove_file_default file_path w = (Returns b, w') ∧
    trace w' = trace w ++ CallSafeRemoveFile file_path :: new ∧
    cleanup_calls new = [].
Proof.
  unfold safe_remove_file_default, safe_remove_file, bind, emit. cbn.
  match goal with |- context [safe_remove_attempts _ ?d ?n ?w0] =>
    destruct (safe_remove_attempts_spec file_path d n w0)
      as (b & w' & k & -> & Htr & _); [done|]
  end.
  cbn in Htr. eexists b, w', _. split; [done|].
  split; [by rewrite Htr, <- app_assoc|].
  rewrite cleanup_calls_app, cleanup_calls_failed. by destruct b.
Qed.

(** A returning [process_frames] has numeric aggregates, or none at all:
    [statistics.mean] has accepted the voltages. *)
Lemma process_frames_numeric frames result :
  process_frames frames = Returns result →
  (battery_data result = [] ∧ max_voltage result = None ∧
   min_voltage result = None ∧ mean_voltage result = None) ∨
  (∃ v l mx mn,
     r_Volt <$> battery_data result = VNum <$> v :: l ∧
     max_voltage result = Some (VNum mx) ∧ is_maximum mx (v :: l) ∧
     min_voltage result = Some (VNum mn) ∧ is_minimum mn (v :: l) ∧
     mean_voltage result = Some (VNum (arithmetic_mean (v :: l)))).
Proof.
  intros (msgs & -> & HF & _ & Hmx & Hmn & Hmean)%process_frames_inv.
  destruct (battery_data result) as [|r records] eqn:Hbd.
  { left. cbn in Hmx, Hmn, Hmean. by simplify_eq. }
  right. rewrite fmap_cons in Hmx, Hmn, Hmean |- *.
  cbn [if_nonempty statistics_mean] in Hmean.
  destruct (exact_sum _) as [total|] eqn:Hsum; [|done].
  pose proof (exact_sum_returns _ _ Hsum) as [[|v l] Hl]; [done|].
  rewrite Hl in Hmx, Hmn |- *.
  destruct (aggregates_numeric v l) as (mx & mn & Hmx' & Hmn' & Hmean' & ? & ?).
  exists v, l, mx, mn. split_and!; try done; try congruence.
  rewrite fmap_cons in Hmean'. cbn [if_nonempty statistics_mean] in Hmean'.
  rewrite <- (fmap_cons VNum v l), <- Hl, Hsum in Hmean'. congruence.
Qed.

Lemma upload_respond_cases request key types frames result w :
  process_frames frames = Returns result →
  ∃ resp w',
    upload_respond request key types result w = (Returns resp, w') ∧
    trace w' = trace w ∧
    ((battery_data result = [] ∧ resp = no_bat_response (sorted types) ∧
      files w' = files w) ∨
     (battery_data result ≠ [] ∧
      ∃ stored_max stored_min stored_mean,
        round2_or_None (max_voltage result) = Returns stored_max ∧
        round2_or_None (min_voltage result) = Returns stored_min ∧
        round2_or_None (mean_voltage result) = Returns stored_mean ∧
        let shown := response_data request (battery_data result) in
        let doc := stored_data shown stored_max stored_min stored_mean
                     (sorted types) (clock w) in
        ((resp = success_response key shown stored_max stored_min
                   stored_mean (sorted types) ∧
          files w' = <[data_path key := JsonFile doc]> (files w)) ∨
         (resp = save_error ∧ files w' = files w)))).
Proof.
  intros Hres. unfold upload_respond.
  destruct (process_frames_numeric _ _ Hres)
    as [(Hbd & _)|(v & l & mx & mn & Hv & -> & _ & -> & _ & ->)].
  { rewrite Hbd. exists (no_bat_response (sorted types)), w.
    split; [done|]. split; [done|]. by left. }
  destruct (battery_data result) as [|r records] eqn:Hbd; [done|].
  unfold bind, lift, time_time. cbn.
  match goal with |- context [save_processed_data ?k ?d w] =>
    destruct (save_processed_data_cases k d w)
      as (w' & Htr & _ & [[-> Hfs]|[-> Hfs]])
  end; cbn.
  - eexists _, w'. split; [done|]. split; [done|]. right. split; [done|].
    eexists _, _, _. split_and!; try done. by left.
  - eexists _, w'. split; [done|]. split; [done|]. right. split; [done|].
    eexists _, _, _. split_and!; try done. by right.
Qed.

Lemma save_upload_cases file w :
  ∃ w', trace w' = trace w ∧ clock w' = clock w ∧
        ((∃ failure, save_upload file w = (Returns (inl failure), w') ∧
                     status failure = 500%Z ∧
                     jget "message_types" (body failure) = None) ∨
         (∃ log_path, save_upload file w = (Returns (inr log_path), w') ∧
                      files w' !! log_path = Some (LogFile (content file)))).
Proof.
  unfold save_upload, NamedTemporaryFile, try_except, bind, ret. cbn.
  match goal with |- context [write_file ?p ?c ?w0] =>
    destruct (write_file_cases p c w0)
      as (w1 & Htr1 & Hck1 & [[-> Hfs1]|(e & -> & Hfs1)])
  end; cbn in *.
  - match goal with |- context [write_file ?p ?c w1] =>
      destruct (write_file_cases p c w1)
        as (w2 & Htr2 & Hck2 & [[-> Hfs2]|(e & -> & Hfs2)])
    end; cbn.
    + exists w2. split; [congruence|]. split; [congruence|]. right.
      eexists. split; [done|]. by rewrite Hfs2, lookup_insert_eq.
    + exists w2. split; [congruence|]. split; [congruence|]. left.
      eexists. by split_and!.
  - exists w1. split; [done|]. split; [done|]. left. eexists. by split_and!.
Qed.

Lemma upload_body_unfold request key log_path frames w :
  files w !! log_path = Some (LogFile frames) →
  upload_body request key log_path w =
    match types_loop frames ∅ with
    | Raises e => (Raises e, w)
    | Returns types =>
        match process_frames frames with
        | Raises e => (Raises e, w)
        | Returns result =>
            match safe_remove_file_default log_path w with
            | (Returns _, w1) => upload_respond request key types result w1
            | (Raises e, w1) => (Raises e, w1)
            end
        end
    end.
Proof.
  intros Hfile. unfold upload_body, bind, mavlink_connection, get_files, lift.
  cbn. rewrite Hfile. cbn. destruct (types_loop frames ∅); [|done].
  rewrite (process_battery_data_open _ _ _ Hfile).
  by destruct (process_frames frames).
Qed.

Lemma upload_body_cases request key log_path frames w :
  files w !! log_path = Some (LogFile frames) →
  (∃ e, upload_body request key log_path w = (Raises e, w) ∧
        ((∀ msgs, frames ≠ Frame <$> msgs) ∨
         process_frames frames = Raises e)) ∨
  (∃ msgs result w1 new,
     frames = Frame <$> msgs ∧
     process_frames frames = Returns result ∧
     trace w1 = trace w ++ CallSafeRemoveFile log_path :: new ∧
     cleanup_calls new = [] ∧
     upload_body request key log_path w
       = upload_respond request key (type_names msgs) result w1).
Proof.
  intros Hfile. rewrite (upload_body_unfold _ _ _ _ _ Hfile).
  destruct (types_loop frames ∅) as [types|e] eqn:Htypes.
  - pose proof (types_loop_inv _ _ _ Htypes) as [msgs ->].
    rewrite types_loop_returns, (left_id_L ∅ (∪)) in Htypes.
    injection Htypes as <-.
    destruct (process_frames (Frame <$> msgs)) as [result|e] eqn:Hres.
    + right.
      destruct (safe_remove_file_default_spec log_path w)
        as (b & w1 & new & -> & Htr & Hnew).
      by exists msgs, result, w1, new.
    + left. exists e. split; [done|]. by right.
  - left. exists e. split; [done|]. left. intros msgs ->.
    by rewrite types_loop_returns in Htypes.
Qed.

(** All the ways an upload with a file part can go. *)
Lemma upload_bin_cases request file w :
  request_file request = Some file →
  filename file ≠ EmptyString →
  let key := default (pretty (py_int (clock w))) (arg_key request) in
  ∃ resp w',
    upload_bin request w = (Returns resp, w') ∧
    ((status resp = 500%Z ∧ jget "message_types" (body resp) = None ∧
      save_upload file w = (Returns (inl resp), w')) ∨
     (∃ log_path w1 new,
        save_upload file w = (Returns (inr log_path), w1) ∧
        trace w' = trace w1 ++ new ∧
        cleanup_calls new = [CallSafeRemoveFile log_path] ∧
        ((∃ e, resp = processing_error e ∧
               upload_body request key log_path w1 = (Raises e, w1) ∧
               ((∀ msgs, content file ≠ Frame <$> msgs) ∨
                process_frames (content file) = Raises e)) ∨
         (∃ msgs result w2,
            content file = Frame <$> msgs ∧
            process_frames (content file) = Returns result ∧
            upload_body request key log_path w1 = (Returns resp, w') ∧
            upload_respond request key (type_names msgs) result w2
              = (Returns resp, w'))))).
Proof.
  intros Hfile Hname key. unfold upload_bin. rewrite Hfile.
  apply String.eqb_neq in Hname as ->.
  unfold bind at 1, time_time. unfold bind at 1. fold key.
  destruct (save_upload_cases file w)
    as (w1 & Htr1 & Hck1 & [(failure & -> & Hst & Hmt)|(log_path & -> & Hlog)]).
  { exists failure, w1. split; [done|]. left. by split_and!. }
  unfold try_except.
  destruct (upload_body_cases request key log_path _ w1 Hlog)
    as [(e & Hbody & Hwhy)|(msgs & result & w2 & new & Hmsgs & Hres & Htr2 & Hnew & Hbody)];
    rewrite Hbody.
  - unfold bind.
    destruct (safe_remove_file_default_spec log_path w1)
      as (b & w2 & new & -> & Htr2 & Hnew).
    exists (processing_error e), w2. split; [done|]. right.
    exists log_path, w1, (CallSafeRemoveFile log_path :: new).
    split_and!; try done.
    + change (CallSafeRemoveFile log_path :: new)
        with ([CallSafeRemoveFile log_path] ++ new).
      by rewrite cleanup_calls_app, Hnew.
    + left. by exists e.
  - destruct (upload_respond_cases request key (type_names msgs) _ result w2 Hres)
      as (resp & w' & Hrun & Htr' & _).
    rewrite Hrun. exists resp, w'. split; [done|]. right.
    exists log_path, w1, (CallSafeRemoveFile log_path :: new).
    split_and!; try done.
    + by rewrite Htr', Htr2.
    + change (CallSafeRemoveFile log_path :: new)
        with ([CallSafeRemoveFile log_path] ++ new).
      by rewrite cleanup_calls_app, Hnew.
    + right. exists msgs, result, w2. split_and!; try done. congruence.
Qed.

(** C10.  Once the upload has been written to its temporary file, the
    handler returns a response and has called [safe_remove_file] exactly
    once, on that file: after processing when the body of the [try]
    completes, in the [except] clause when it raises. *)
Theorem upload_cleans_up_once request file log_path w w1 :
  request_file request = Some file →
  filename file ≠ EmptyString →
  save_upload file w = (Returns (inr log_path), w1) →
  let key := default (pretty (py_int (clock w))) (arg_key request) in
  ∃ resp w' new,
    upload_bin request w = (Returns resp, w') ∧
    trace w' = trace w1 ++ new ∧
    cleanup_calls new = [CallSafeRemoveFile log_path] ∧
    (upload_body request key log_path w1 = (Returns resp, w') ∨
     ∃ e, upload_body request key log_path w1 = (Raises e, w1) ∧
          resp = processing_error e).
Proof.
  intros Hfile Hname Hsave key.
  destruct (upload_bin_cases request file w Hfile Hname)
    as (resp & w' & Hrun & [(_ & _ & Hfail)|(p & w1' & new & Hsave' & Htr & Hnew & Hpath)]).
  { rewrite Hsave in Hfail. done. }
  rewrite Hsave in Hsave'. injection Hsave' as <- <-.
  exists resp, w', new. split_and!; try done.
  destruct Hpath as [(e & -> & Hbody & _)|(msgs & result & w2 & _ & _ & Hbody & _)].
  - right. by exists e.
  - by left.
Qed.

(** The aggregates of a returning run are those of the numeric voltages
    of all BAT messages of the log. *)
Lemma process_frames_voltages msgs result :
  process_frames (Frame <$> msgs) = Returns result →
  ∃ volts,
    Forall2 (λ m q, to_dict m !! "Volt" = Some (VNum q))
      (filter is_BAT msgs) volts ∧
    length (battery_data result) = length volts ∧
    ((volts = [] ∧ max_voltage result = None ∧ min_voltage result = None ∧
      mean_voltage result = None) ∨
     (∃ mx mn,
        max_voltage result = Some (VNum mx) ∧ is_maximum mx volts ∧
        min_voltage result = Some (VNum mn) ∧ is_minimum mn volts ∧
        mean_voltage result = Some (VNum (arithmetic_mean volts)))).
Proof.
  intros Hres.
  pose proof (process_frames_inv _ _ Hres) as (msgs' & Hmsgs & HF & _).
  apply (inj (fmap Frame)) in Hmsgs as <-.
  assert (Forall2 (λ m v, to_dict m !! "Volt" = Some v)
            (filter is_BAT msgs) (r_Volt <$> battery_data result)) as HV.
  { apply Forall2_fmap_r. eapply Forall2_impl; [exact HF|].
    intros m r Hr. by apply bat_record_inv in Hr as (_ & ? & _). }
  destruct (process_frames_numeric _ _ Hres)
    as [(Hbd & ? & ? & ?)|(v & l & mx & mn & Hv & ? & ? & ? & ? & ?)].
  - exists []. rewrite Hbd in HV |- *. apply Forall2_nil_inv_r in HV as ->.
    split; [constructor|]. split; [done|]. left. by split_and!.
  - exists (v :: l). rewrite Hv in HV. apply Forall2_fmap_r in HV.
    split; [done|]. split.
    + apply (f_equal length) in Hv. by rewrite !length_fmap in Hv.
    + right. exists mx, mn. by split_and!.
Qed.

(** C3, as the code has it.  When the uploaded log is readable and holds
    no BAT message, the handler answers with status 400, the error
    "No BAT messages found in the log" and the sorted type names seen;
    the response carries no battery data. *)
Theorem upload_without_bat request file msgs log_path w w1 :
  request_file request = Some file →
  filename file ≠ EmptyString →
  content file = Frame <$> msgs →
  filter is_BAT msgs = [] →
  save_upload file w = (Returns (inr log_path), w1) →
  ∃ resp w',
    upload_bin request w = (Returns resp, w') ∧
    resp = no_bat_response (sorted (type_names msgs)) ∧
    status resp = 400%Z ∧
    jget "error" (body resp) = Some (JStr "No BAT messages found in the log") ∧
    jget "battery_data" (body resp) = None.
Proof.
  intros Hfile Hname Hcontent Hnobat Hsave.
  destruct (upload_bin_cases request file w Hfile Hname)
    as (resp & w' & Hrun & [(_ & _ & Hfail)|(p & w1' & new & _ & _ & _ & Hpath)]).
  { rewrite Hsave in Hfail. done. }
  assert (∃ result, process_frames (content file) = Returns result ∧
                    battery_data result = []) as (result & Hres & Hbd).
  { destruct (process_frames_complete msgs) as (result & Hres & HF & _).
    { by rewrite Hnobat. }
    exists result. rewrite Hcontent. split; [done|].
    rewrite Hnobat in HF. by apply Forall2_nil_inv_l in HF. }
  exists resp, w'. split; [done|].
  destruct Hpath as [(e & _ & _ & [Hbad|Hraise])
                    |(msgs' & result' & w2 & Hmsgs & Hres' & _ & Hresp)].
  - by destruct (Hbad msgs).
  - congruence.
  - rewrite Hcontent in Hmsgs. apply (inj (fmap Frame)) in Hmsgs as <-.
    rewrite Hres in Hres'. injection Hres' as <-.
    destruct (upload_respond_cases request
                (default (pretty (py_int (clock w))) (arg_key request))
                (type_names msgs) _ result w2 Hres)
      as (resp' & w'' & Hrun' & _ & [(_ & -> & _)|(Hne & _)]); [|done].
    rewrite Hresp in Hrun'. injection Hrun' as -> _. by split_and!.
Qed.





(** C3 fails as stated: a readable log without BAT messages is answered
    with the error status 400, not with an empty result. *)
Lemma upload_no_bat_counterexample :
  ∃ resp w',
    upload_bin no_bat_request upload_world = (Returns resp, w') ∧
    filter is_BAT no_bat_msgs = [] ∧
    status resp = 400%Z ∧
    jget "error" (body resp) = Some (JStr "No BAT messages found in the log") ∧
    jget "battery_data" (body resp) = None.
Proof.
  eexists _, _. split; [vm_compute; reflexivity|]. by split_and!.
Qed.

Lemma upload_without_bat_witness :
  ∃ resp w',
    upload_bin no_bat_request upload_world = (Returns resp, w') ∧
    status resp = 400%Z.
Proof.
  destruct (save_upload no_bat_upload upload_world) as [[[failure|log_path]|e] w1]
    eqn:Hsave; [by vm_compute in Hsave| |by vm_compute in Hsave].
  destruct (upload_without_bat no_bat_request no_bat_upload no_bat_msgs
              log_path upload_world w1 eq_refl)
    as (resp & w' & Hrun & _ & Hst & _); [done|reflexivity|reflexivity|exact Hsave|].
  by exists resp, w'.
Defined.



Lemma safe_remove_file_bounded_witness :
  ∃ (b : bool) w' new,
    safe_remove_file sample_path 3 (Q2Qc (1 # 2)) locked_world
      = (Returns b, w') ∧
    (Z.of_nat (deletion_attempts new) ≤ 3)%Z.
Proof.
  destruct (safe_remove_file_bounded sample_path 3 (Q2Qc (1 # 2)) locked_world)
    as (b & w' & new & Hrun & _ & Hbound & _); [lia|done|].
  by exists b, w', new.
Defined.



Lemma upload_cleans_up_once_witness :
  ∃ log_path w1 resp w' new,
    save_upload sample_upload upload_world = (Returns (inr log_path), w1) ∧
    upload_bin sample_request upload_world = (Returns resp, w') ∧
    trace w' = trace w1 ++ new ∧
    cleanup_calls new = [CallSafeRemoveFile log_path].
Proof.
  destruct (save_upload sample_upload upload_world) as [[[failure|log_path]|e] w1]
    eqn:Hsave; [by vm_compute in Hsave| |by vm_compute in Hsave].
  destruct (upload_cleans_up_once sample_request sample_upload log_path
              upload_world w1 eq_refl)
    as (resp & w' & new & Hrun & Htr & Hnew & _); [done|exact Hsave|].
  by exists log_path, w1, resp, w', new.
Defined.

(** * Further properties *)

(** ** Battery.py: when it returns, what it ignores, how logs compose *)

Lemma bat_record_functional m r1 r2 :
  bat_record m = Returns r1 → bat_record m = Returns r2 → r1 = r2.
Proof. congruence. Qed.

(** [process_frames] returns exactly on a log without read failures
    whose BAT messages are all complete. *)
Lemma process_frames_returns_iff frames :
  returns (process_frames frames) = true ↔
  ∃ msgs, frames = Frame <$> msgs ∧
          Forall bat_complete (filter is_BAT msgs).
Proof.
  split.
  - destruct (process_frames frames) as [result|] eqn:Hres; [intros _|done].
    pose proof (process_frames_inv _ _ Hres) as (msgs & -> & HF & _).
    destruct (process_frames_voltages _ _ Hres) as (volts & HV & _).
    exists msgs. split; [done|]. apply Forall_lookup. intros i m Hm.
    destruct (Forall2_lookup_l _ _ _ _ _ HF Hm) as (r & _ & Hr).
    destruct (Forall2_lookup_l _ _ _ _ _ HV Hm) as (q & _ & Hq).
    apply bat_record_inv in Hr as ((t & Ht & _) & _ & Hc & _).
    split_and!; [by eauto| |by eauto]. exists q. by apply volt_of_Some.
  - intros (msgs & -> & Hc).
    destruct (process_frames_complete msgs Hc) as (result & -> & _). done.
Qed.

(** The loop skips every message that is not a BAT message. *)
Lemma bat_loop_filter msgs bd vs :
  bat_loop (Frame <$> msgs) bd vs
  = bat_loop (Frame <$> filter is_BAT msgs) bd vs.
Proof.
  revert bd vs. induction msgs as [|m msgs IH]; intros bd vs; [done|].
  rewrite fmap_cons. cbn [bat_loop]. rewrite is_BAT_eqb.
  case_bool_decide as Hbat.
  - rewrite filter_cons_True by done. rewrite fmap_cons. cbn [bat_loop].
    rewrite is_BAT_eqb, bool_decide_eq_true_2 by done.
    destruct (getattr m "Volt"); [|done]. cbn [obind].
    destruct (bat_record m); [|done]. cbn [obind]. apply IH.
  - rewrite filter_cons_False by done. apply IH.
Qed.

(** X1.  [process_battery_data] returns exactly when the file is a log
    that reads to its end and every BAT message in it has a numeric TimeUS,
    a numeric Volt and a Curr; in every other case it raises. *)
Theorem process_battery_data_returns_iff log_path w :
  returns (process_battery_data log_path w).1 = true ↔
  ∃ msgs, files w !! log_path = Some (LogFile (Frame <$> msgs)) ∧
          Forall bat_complete (filter is_BAT msgs).
Proof.
  split.
  - destruct (process_battery_data log_path w) as [[result|e] w'] eqn:Hrun;
      [intros _|done].
    apply process_battery_data_inv in Hrun as (_ & frames & Hfile & Hres).
    assert (returns (process_frames frames) = true) as Hret by by rewrite Hres.
    apply process_frames_returns_iff in Hret as (msgs & -> & Hc). eauto.
  - intros (msgs & Hfile & Hc).
    rewrite (process_battery_data_open _ _ _ Hfile). cbn.
    apply process_frames_returns_iff. eauto.
Qed.

(** X2.  Only the BAT messages of a log matter: two readable logs with the
    same BAT messages in the same order give the same outcome, result or
    exception, whatever other messages they hold. *)
Theorem process_frames_depends_on_BAT_only msgs1 msgs2 :
  filter is_BAT msgs1 = filter is_BAT msgs2 →
  process_frames (Frame <$> msgs1) = process_frames (Frame <$> msgs2).
Proof.
  intros Heq. unfold process_frames.
  by rewrite (bat_loop_filter msgs1), (bat_loop_filter msgs2), Heq.
Qed.

Lemma process_frames_depends_on_BAT_only_witness :
  filter is_BAT sample_msgs
    = filter is_BAT (sample_gps :: sample_msgs ++ [sample_fmt]) ∧
  process_frames (Frame <$> sample_msgs)
    = process_frames (Frame <$> sample_gps :: sample_msgs ++ [sample_fmt]).
Proof.
  split; [reflexivity|].
  apply (process_frames_depends_on_BAT_only sample_msgs
           (sample_gps :: sample_msgs ++ [sample_fmt])).
  reflexivity.
Defined.

Lemma Qc_of_nat_S n : Qc_of_nat (S n) = (Qc_of_nat n + 1)%Qc.
Proof.
  unfold Qc_of_nat. by rewrite Nat2Z.inj_succ, <- Z.add_1_r, Z2Qc_inj_add.
Qed.








(** X4.  Logs compose: when two logs are each processed successfully, so is
    the log made of the first followed by the second, and its records are
    the records of the first followed by those of the second. *)
Theorem process_frames_app frames1 frames2 result1 result2 :
  process_frames frames1 = Returns result1 →
  process_frames frames2 = Returns result2 →
  ∃ result,
    process_frames (frames1 ++ frames2) = Returns result ∧
    battery_data result = battery_data result1 ++ battery_data result2.
Proof.
  intros Hres1 Hres2.
  pose proof (process_frames_inv _ _ Hres1) as (msgs1 & -> & HF1 & _).
  pose proof (process_frames_inv _ _ Hres2) as (msgs2 & -> & HF2 & _).
  assert (returns (process_frames (Frame <$> msgs1)) = true) as Hc1
    by by rewrite Hres1.
  assert (returns (process_frames (Frame <$> msgs2)) = true) as Hc2
    by by rewrite Hres2.
  apply process_frames_returns_iff in Hc1 as (msgs1' & Heq1 & Hc1).
  apply process_frames_returns_iff in Hc2 as (msgs2' & Heq2 & Hc2).
  apply (inj (fmap Frame)) in Heq1 as <-.
  apply (inj (fmap Frame)) in Heq2 as <-.
  rewrite <- fmap_app.
  assert (returns (process_frames (Frame <$> msgs1 ++ msgs2)) = true) as Hret.
  { apply process_frames_returns_iff. exists (msgs1 ++ msgs2).
    split; [done|]. rewrite filter_app. by apply Forall_app. }
  destruct (process_frames (Frame <$> msgs1 ++ msgs2)) as [result|] eqn:Hres;
    [|done].
  exists result. split; [done|].
  pose proof (process_frames_inv _ _ Hres) as (msgs & Heq & HF & _).
  apply (inj (fmap Frame)) in Heq as <-. rewrite filter_app in HF.
  eapply Forall2_unique; [exact HF|by apply Forall2_app|].
  intros m r1 r2. apply bat_record_functional.
Qed.

Lemma process_frames_app_witness :
  ∃ result1 result,
    process_frames (Frame <$> sample_msgs) = Returns result1 ∧
    process_frames ((Frame <$> sample_msgs) ++ (Frame <$> sample_msgs))
      = Returns result ∧
    battery_data result = battery_data result1 ++ battery_data result1.
Proof.
  destruct (process_frames (Frame <$> sample_msgs)) as [result1|] eqn:Hres;
    [|by vm_compute in Hres].
  destruct (process_frames_app _ _ result1 result1 Hres Hres)
    as (result & Hrun & Hbd).
  by exists result1, result.
Defined.

(** The loop over a log that starts with frames it gets through goes on
    with the rest from the lists built so far. *)
Lemma bat_loop_app msgs more bd vs bd' vs' :
  bat_loop (Frame <$> msgs) bd vs = Returns (bd', vs') →
  bat_loop ((Frame <$> msgs) ++ more) bd vs = bat_loop more bd' vs'.
Proof.
  revert bd vs. induction msgs as [|m msgs IH]; intros bd vs.
  - by intros [= <- <-].
  - rewrite fmap_cons. cbn [bat_loop app].
    destruct (String.eqb (get_type m) "BAT"); [|apply IH].
    destruct (getattr m "Volt"); [|done]. cbn [obind].
    destruct (bat_record m); [|done]. cbn [obind]. apply IH.
Qed.

(** X5.  Processing stops at the first frame it cannot handle, and the
    exception is that frame's: after messages whose BAT records can all be
    built, a read failure raises the reader's exception and a BAT message
    without Volt raises AttributeError Volt, whatever follows in the log. *)
Theorem process_frames_first_failure msgs rest :
  Forall (λ m, returns (bat_record m) = true) (filter is_BAT msgs) →
  (∀ e, process_frames ((Frame <$> msgs) ++ BadRead e :: rest) = Raises e) ∧
  (∀ m, is_BAT m → to_dict m !! "Volt" = None →
        process_frames ((Frame <$> msgs) ++ Frame m :: rest)
          = Raises (AttributeError "Volt")).
Proof.
  intros Hok.
  assert (∃ records,
            Forall2 (λ m r, bat_record m = Returns r) (filter is_BAT msgs) records)
    as [records HF].
  { induction Hok as [|m bats Hm _ [records HF]]; [by exists []|].
    destruct (bat_record m) as [r|] eqn:Hr; [|done].
    exists (r :: records). by constructor. }
  assert (bat_loop (Frame <$> msgs) [] [] = Returns (records, r_Volt <$> records))
    as Hloop by (apply bat_loop_returns; by exists msgs, records).
  split.
  - intros e. unfold process_frames.
    by rewrite (bat_loop_app _ _ _ _ _ _ Hloop).
  - intros m Hbat Hvolt. unfold process_frames.
    rewrite (bat_loop_app _ _ _ _ _ _ Hloop). cbn [bat_loop].
    rewrite is_BAT_eqb, bool_decide_eq_true_2 by done.
    unfold getattr. by rewrite Hvolt.
Qed.

Lemma process_frames_first_failure_witness :
  Forall (λ m, returns (bat_record m) = true) (filter is_BAT sample_msgs) ∧
  process_frames ((Frame <$> sample_msgs)
                    ++ BadRead (OSError "short read") :: [Frame sample_gps])
    = Raises (OSError "short read").
Proof.
  assert (Forall (λ m, returns (bat_record m) = true)
            (filter is_BAT sample_msgs)) as Hok by (by repeat constructor).
  split; [exact Hok|].
  apply (process_frames_first_failure sample_msgs [Frame sample_gps] Hok).
Defined.

(** ** main.py: more on deleting the temporary file *)

Lemma os_remove_missing path w :
  files w !! path = None →
  ∃ e w', os_remove path w = (Raises e, w') ∧
          trace w' = trace w ++ [OsRemove path false] ∧
          files w' = files w ∧ clock w' = clock w.
Proof.
  intros Hnone.
  unfold os_remove, bind, next_fault, get_files, emit, raise, set_files.
  destruct (faults w) as [|[] rest]; cbn; rewrite ?Hnone; cbn;
    eexists _, (World _ _ _ _ _); by split_and!.
Qed.

Lemma os_remove_locked path w rest :
  faults w = true :: rest →
  ∃ e w', os_remove path w = (Raises e, w') ∧
          trace w' = trace w ++ [OsRemove path false] ∧
          files w' = files w ∧ clock w' = clock w ∧ faults w' = rest.
Proof.
  intros Hf.
  unfold os_remove, bind, next_fault, get_files, emit, raise, set_files.
  rewrite Hf. cbn. eexists _, (World _ _ _ _ _). by split_and!.
Qed.

Lemma os_remove_unlocked path w :
  head (faults w) ≠ Some true →
  is_Some (files w !! path) →
  ∃ w', os_remove path w = (Returns (), w') ∧
        trace w' = trace w ++ [OsRemove path true] ∧
        files w' = delete path (files w) ∧ clock w' = clock w ∧
        faults w' = tail (faults w).
Proof.
  intros Hf [content Hc].
  unfold os_remove, bind, next_fault, get_files, emit, raise, set_files.
  cbn. destruct (faults w) as [|[] rest] eqn:E; cbn in *; [|done|];
    rewrite Hc; cbn; eexists (World _ _ _ _ _); by split_and!.
Qed.

Lemma time_sleep_spec delay w :
  (0 <= delay)%Qc →
  ∃ w', time_sleep delay w = (Returns (), w') ∧
        trace w' = trace w ++ [Sleep delay] ∧ files w' = files w ∧
        clock w' = (clock w + delay)%Qc ∧ faults w' = faults w.
Proof.
  intros Hd. unfold time_sleep. apply Qc_ltb_ge in Hd as ->.
  unfold bind, emit. cbn. eexists (World _ _ _ _ _). by split_and!.
Qed.

Lemma safe_remove_attempts_missing file_path delay n w :
  (0 <= delay)%Qc →
  files w !! file_path = None →
  ∃ w', safe_remove_attempts file_path delay n w = (Returns false, w') ∧
        trace w' = trace w ++ failed_attempts file_path delay n ∧
        files w' = files w ∧
        clock w' = (clock w + Qc_of_nat n * delay)%Qc.
Proof.
  intros Hd. revert w. induction n as [|n IH]; intros w Hnone.
  - exists w. split_and!; [done|by rewrite app_nil_r|done|].
    change (Qc_of_nat 0) with (Qc_of_Z 0). rewrite Z2Qc_inj_0. ring.
  - cbn [safe_remove_attempts]. unfold try_except, bind at 1.
    destruct (os_remove_missing file_path w Hnone)
      as (e & w1 & -> & Htr1 & Hfs1 & Hck1).
    unfold bind.
    destruct (time_sleep_spec delay w1 Hd) as (w2 & -> & Htr2 & Hfs2 & Hck2 & _).
    destruct (IH w2) as (w' & -> & Htr' & Hfs' & Hck'); [congruence|].
    exists w'. split_and!; [done| |congruence|].
    + rewrite Htr', Htr2, Htr1. unfold failed_attempts. cbn.
      by rewrite <- !app_assoc.
    + rewrite Hck', Hck2, Hck1, Qc_of_nat_S. ring.
Qed.

(** X6.  Deleting a file that does not exist cannot succeed: with a sleep
    length that is not negative, [safe_remove_file] makes all its
    [retries] attempts, sleeps after each, returns [False], leaves the
    files as they are and has cost [retries × delay] of time. *)
Theorem safe_remove_file_missing file_path retries delay w :
  (0 <= delay)%Qc →
  files w !! file_path = None →
  ∃ w',
    safe_remove_file file_path retries delay w = (Returns false, w') ∧
    trace w' = trace w ++ CallSafeRemoveFile file_path
                 :: failed_attempts file_path delay (Z.to_nat retries) ∧
    files w' = files w ∧
    clock w' = (clock w + Qc_of_nat (Z.to_nat retries) * delay)%Qc.
Proof.
  intros Hd Hnone. unfold safe_remove_file, bind, emit. cbn.
  match goal with |- context [safe_remove_attempts _ _ ?n ?w0] =>
    destruct (safe_remove_attempts_missing file_path delay n w0 Hd Hnone)
      as (w' & -> & Htr & Hfs & Hck)
  end.
  exists w'. cbn in *. split_and!; try done. by rewrite Htr, <- app_assoc.
Qed.

Lemma safe_remove_file_missing_witness :
  ∃ w',
    safe_remove_file "/tmp/gone.bin" 3 (Q2Qc (1 # 2)) sample_world
      = (Returns false, w') ∧
    clock w' = (clock sample_world + Qc_of_nat 3 * Q2Qc (1 # 2))%Qc.
Proof.
  destruct (safe_remove_file_missing "/tmp/gone.bin" 3 (Q2Qc (1 # 2))
              sample_world)
    as (w' & Hrun & _ & _ & Hck); [done|reflexivity|].
  by exists w'.
Defined.

Lemma safe_remove_attempts_unlocks file_path delay n w k rest :
  (0 <= delay)%Qc →
  faults w = replicate k true ++ rest →
  head rest ≠ Some true →
  is_Some (files w !! file_path) →
  k < n →
  ∃ w', safe_remove_attempts file_path delay n w = (Returns true, w') ∧
        trace w' = trace w ++ failed_attempts file_path delay k
                     ++ [OsRemove file_path true] ∧
        files w' = delete file_path (files w) ∧
        clock w' = (clock w + Qc_of_nat k * delay)%Qc ∧
        faults w' = tail rest.
Proof.
  intros Hd. revert n w. induction k as [|k IH]; intros n w Hf Hrest Hfile Hk.
  - destruct n as [|n]; [lia|]. cbn [safe_remove_attempts].
    unfold try_except, bind at 1. cbn in Hf.
    destruct (os_remove_unlocked file_path w) as (w' & -> & ? & ? & ? & ?);
      [by rewrite Hf|done|].
    exists w'. split_and!; try done; [|congruence].
    change (Qc_of_nat 0) with (Qc_of_Z 0). rewrite Z2Qc_inj_0. by ring_simplify.
  - destruct n as [|n]; [lia|]. cbn [safe_remove_attempts].
    unfold try_except, bind at 1. cbn [replicate app] in Hf.
    destruct (os_remove_locked file_path w _ Hf)
      as (e & w1 & -> & Htr1 & Hfs1 & Hck1 & Hf1).
    unfold bind.
    destruct (time_sleep_spec delay w1 Hd)
      as (w2 & -> & Htr2 & Hfs2 & Hck2 & Hf2).
    destruct (IH n w2) as (w' & -> & Htr' & Hfs' & Hck' & Hf');
      [congruence|done|congruence|lia|].
    exists w'. split_and!; [done| |congruence| |done].
    + rewrite Htr', Htr2, Htr1. unfold failed_attempts. cbn.
      by rewrite <- !app_assoc.
    + rewrite Hck', Hck2, Hck1, Qc_of_nat_S. ring.
Qed.

(** X7.  Retrying pays off: when the file exists and the operating system
    refuses the first [k] deletions, with [k < retries], [safe_remove_file]
    makes exactly [k + 1] attempts, the last one successful, sleeps [k]
    times, returns [True] and has removed the file. *)
Theorem safe_remove_file_unlocks file_path retries delay w k rest :
  (0 <= delay)%Qc →
  faults w = replicate k true ++ rest →
  head rest ≠ Some true →
  is_Some (files w !! file_path) →
  (Z.of_nat k < retries)%Z →
  ∃ w',
    safe_remove_file file_path retries delay w = (Returns true, w') ∧
    trace w' = trace w ++ CallSafeRemoveFile file_path
                 :: failed_attempts file_path delay k
                 ++ [OsRemove file_path true] ∧
    files w' = delete file_path (files w) ∧
    clock w' = (clock w + Qc_of_nat k * delay)%Qc.
Proof.
  intros Hd Hf Hrest Hfile Hk. unfold safe_remove_file, bind, emit. cbn.
  match goal with |- context [safe_remove_attempts _ _ ?n ?w0] =>
    destruct (safe_remove_attempts_unlocks file_path delay n w0 k rest)
      as (w' & -> & Htr & Hfs & Hck & _); [done|done|done|done|lia|]
  end.
  exists w'. cbn in *. split_and!; try done. by rewrite Htr, <- app_assoc.
Qed.

Lemma safe_remove_file_unlocks_witness :
  ∃ w',
    safe_remove_file sample_path 3 (Q2Qc (1 # 2)) locked_world
      = (Returns true, w') ∧
    files w' = delete sample_path (files locked_world) ∧
    clock w' = (clock locked_world + Qc_of_nat 1 * Q2Qc (1 # 2))%Qc.
Proof.
  destruct (safe_remove_file_unlocks sample_path 3 (Q2Qc (1 # 2))
              locked_world 1 [])
    as (w' & Hrun & _ & Hfs & Hck);
    [done|reflexivity|done|by eexists|lia|].
  by exists w'.
Defined.



Lemma os_remove_frame path w other :
  other ≠ path →
  files (os_remove path w).2 !! other = files w !! other.
Proof.
  intros Hne.
  destruct (os_remove_cases path w)
    as [(w' & -> & _ & Hfs)|(e & w' & -> & _ & Hfs)]; cbn; rewrite Hfs;
    [|done].
  by apply lookup_delete_ne.
Qed.

Lemma time_sleep_files delay w : files (time_sleep delay w).2 = files w.
Proof. unfold time_sleep. by destruct (Qc_ltb delay 0). Qed.

Lemma safe_remove_attempts_frame file_path delay n w other :
  other ≠ file_path →
  files (safe_remove_attempts file_path delay n w).2 !! other
    = files w !! other.
Proof.
  intros Hne. revert w. induction n as [|n IH]; intros w; [done|].
  cbn [safe_remove_attempts]. unfold try_except, bind at 1.
  pose proof (os_remove_frame file_path w other Hne) as Hrm.
  destruct (os_remove file_path w) as [[[]|e] w1]; cbn in Hrm |- *; [done|].
  unfold bind. pose proof (time_sleep_files delay w1) as Hsl.
  destruct (time_sleep delay w1) as [[[]|e'] w2]; cbn in Hsl |- *.
  - rewrite IH. congruence.
  - congruence.
Qed.

(** X9.  Whatever [retries] and [delay] are, whether it returns or raises,
    [safe_remove_file] never touches a file other than the one it is asked
    to delete. *)
Theorem safe_remove_file_frame file_path retries delay w other :
  other ≠ file_path →
  files (safe_remove_file file_path retries delay w).2 !! other
    = files w !! other.
Proof.
  intros Hne. unfold safe_remove_file, bind, emit. cbn.
  match goal with |- context [safe_remove_attempts _ _ ?n ?w0] =>
    pose proof (safe_remove_attempts_frame file_path delay n w0 other Hne)
      as Hframe;
    destruct (safe_remove_attempts file_path delay n w0) as [[b|e] w']
  end; exact Hframe.
Qed.

Lemma safe_remove_file_frame_witness :
  files (safe_remove_file "/tmp/gone.bin" 2 (Q2Qc (1 # 2)) sample_world).2
    !! sample_path
  = files sample_world !! sample_path.
Proof.
  apply (safe_remove_file_frame "/tmp/gone.bin" 2 (Q2Qc (1 # 2)) sample_world
           sample_path).
  done.
Defined.

(** ** main.py: more on storing and retrieving *)

(** X10.  GET /data/<key> never raises and never changes anything; its
    status is 200 exactly when a JSON document is stored at the key's
    path (and the body is then that document), 404 exactly when there is
    no file, and 500 exactly when the file there is not JSON. *)
Theorem get_stored_data_status key w :
  ∃ resp,
    get_stored_data key w = (Returns resp, w) ∧
    (status resp = 200%Z ↔
     files w !! data_path key = Some (JsonFile (body resp))) ∧
    (status resp = 404%Z ↔ files w !! data_path key = None) ∧
    (status resp = 500%Z ↔
     ∃ frames, files w !! data_path key = Some (LogFile frames)).
Proof.
  rewrite get_stored_data_lookup. eexists. split; [done|].
  destruct (files w !! data_path key) as [[frames|doc]|]; cbn;
    split_and!; split; try done; try (by intros [? ?]); by eauto.
Qed.



(** X12.  A successful save writes exactly one file.  For a key that starts
    with a slash [os.path.join] drops the storage directory and the file is
    <key>.json itself; for any other key it is
    processed_data/<key>.json. *)
Theorem save_processed_data_path key data w w' :
  save_processed_data key data w = (Returns true, w') →
  (String.prefix "/" key = true →
   files w' !! (key +:+ ".json") = Some (JsonFile data)) ∧
  (String.prefix "/" key = false →
   files w' !! ("processed_data/" +:+ key +:+ ".json")
     = Some (JsonFile data)) ∧
  (∀ path, path ≠ data_path key → files w' !! path = files w !! path).
Proof.
  intros Hsave.
  destruct (save_processed_data_cases key data w)
    as (w0 & _ & _ & [[Hs Hfs]|[Hs _]]); rewrite Hs in Hsave; [|done].
  injection Hsave as <-. rewrite Hfs.
  destruct (data_path_cases key) as [[Hp Hpath]|[Hp Hpath]]; split_and!.
  - intros _. by rewrite <- Hpath, lookup_insert_eq.
  - congruence.
  - intros path Hne. by rewrite lookup_insert_ne.
  - congruence.
  - intros _. by rewrite <- Hpath, lookup_insert_eq.
  - intros path Hne. by rewrite lookup_insert_ne.
Qed.

Lemma save_processed_data_path_witness :
  ∃ w',
    save_processed_data "/etc/flight" (JStr "data") upload_world
      = (Returns true, w') ∧
    files w' !! "/etc/flight.json" = Some (JsonFile (JStr "data")).
Proof.
  destruct (save_processed_data "/etc/flight" (JStr "data") upload_world)
    as [[[|]|e] w'] eqn:Hsave;
    [|by vm_compute in Hsave|by vm_compute in Hsave].
  exists w'. split; [done|].
  by apply (save_processed_data_path "/etc/flight" (JStr "data") upload_world
              w' Hsave).
Defined.

(** ** main.py: more on the upload handler *)


(** What a successful upload has done. *)
Lemma upload_success_inv request w resp w' :
  upload_bin request w = (Returns resp, w') →
  status resp = 200%Z →
  ∃ file msgs result w2 stored_max stored_min stored_mean,
    request_file request = Some file ∧
    content file = Frame <$> msgs ∧
    process_frames (content file) = Returns result ∧
    battery_data result ≠ [] ∧
    let key := default (pretty (py_int (clock w))) (arg_key request) in
    let shown := response_data request (battery_data result) in
    let types := sorted (type_names msgs) in
    resp = success_response key shown stored_max stored_min stored_mean types ∧
    files w' = <[data_path key :=
                   JsonFile (stored_data shown stored_max stored_min
                               stored_mean types (clock w2))]> (files w2).
Proof.
  intros Hrun Hok.
  destruct (request_file request) as [file|] eqn:Hfile; cycle 1.
  { unfold upload_bin in Hrun. rewrite Hfile in Hrun.
    by injection Hrun as <- _. }
  destruct (decide (filename file = EmptyString)) as [Hname|Hname].
  { unfold upload_bin in Hrun. rewrite Hfile, Hname in Hrun.
    by injection Hrun as <- _. }
  destruct (upload_bin_cases request file w Hfile Hname)
    as (resp0 & w0 & Hrun0 & Hcases).
  rewrite Hrun in Hrun0. injection Hrun0 as <- <-.
  destruct Hcases as [(Hst & _)|(p & w1 & new & _ & _ & _ & Hpath)];
    [congruence|].
  destruct Hpath as [(e & -> & _)|(msgs & result & w2 & Hmsgs & Hres & _ & Hresp)];
    [done|].
  destruct (upload_respond_cases request
              (default (pretty (py_int (clock w))) (arg_key request))
              (type_names msgs) _ result w2 Hres)
    as (resp' & w'' & Hrun' & _ & Hcases).
  rewrite Hresp in Hrun'. injection Hrun' as <- <-.
  destruct Hcases as [(_ & -> & _)
    |(Hne & smx & smn & smean & _ & _ & _ & [[-> Hfs]|[-> _]])];
    [done| |done].
  by exists file, msgs, result, w2, smx, smn, smean.
Qed.


(** X14.  Upload then retrieve: after a successful upload, the key in the
    response is the [key] parameter, or the whole seconds of the clock
    when there is none, and GET /data/<key> answers 200 with a document
    whose battery_data, max_voltage, min_voltage, mean_voltage and
    message_types are those of the upload response, plus a timestamp. *)
Theorem upload_then_retrieve request w resp w' :
  upload_bin request w = (Returns resp, w') →
  status resp = 200%Z →
  let key := default (pretty (py_int (clock w))) (arg_key request) in
  jget "key" (body resp) = Some (JStr key) ∧
  ∃ doc,
    get_stored_data key w' = (Returns (Response doc 200), w') ∧
    Forall (λ member, is_Some (jget member doc) ∧
                      jget member doc = jget member (body resp))
      ["battery_data"; "max_voltage"; "min_voltage"; "mean_voltage";
       "message_types"] ∧
    ∃ now, jget "timestamp" doc = Some (JNum now).
Proof.
  intros Hrun Hok key.
  destruct (upload_success_inv _ _ _ _ Hrun Hok)
    as (file & msgs & result & w2 & smx & smn & smean
        & _ & _ & _ & _ & -> & Hfs).
  split; [done|]. eexists. split.
  - rewrite get_stored_data_lookup. fold key. by rewrite Hfs, lookup_insert_eq.
  - split; [|by eexists]. repeat constructor; by eexists.
Qed.

Lemma upload_then_retrieve_witness :
  ∃ resp w' doc,
    upload_bin sample_request upload_world = (Returns resp, w') ∧
    status resp = 200%Z ∧
    get_stored_data "flight1" w' = (Returns (Response doc 200), w').
Proof.
  destruct (upload_bin sample_request upload_world) as [[resp|e] w'] eqn:Hrun;
    [|by vm_compute in Hrun].
  assert (status resp = 200%Z) as Hok.
  { pose proof Hrun as Hrun'. vm_compute in Hrun'. by injection Hrun' as <- _. }
  destruct (upload_then_retrieve sample_request upload_world resp w' Hrun Hok)
    as (_ & doc & Hget & _).
  by exists resp, w', doc.
Defined.

Lemma response_data_is_prefix request all :
  response_data request all `prefix_of` all.
Proof.
  unfold response_data, slice_to.
  destruct (arg_limit request) as [limit|]; [|done].
  destruct (full_data request); [done|].
  destruct (0 <=? limit)%Z; apply prefix_take.
Qed.

(** X15.  Whatever [limit] and [full] are, the battery_data of a
    successful response is a prefix of the full list of records: records
    are never reordered, repeated or invented, only cut off at the end. *)
Theorem upload_returns_prefix request w resp w' :
  upload_bin request w = (Returns resp, w') →
  status resp = 200%Z →
  ∃ file result shown,
    request_file request = Some file ∧
    process_frames (content file) = Returns result ∧
    jget "battery_data" (body resp) = Some (records_json shown) ∧
    shown `prefix_of` battery_data result ∧
    (length shown ≤ length (battery_data result))%nat.
Proof.
  intros Hrun Hok.
  destruct (upload_success_inv _ _ _ _ Hrun Hok)
    as (file & msgs & result & w2 & smx & smn & smean
        & Hfile & _ & Hres & _ & -> & _).
  exists file, result, (response_data request (battery_data result)).
  split_and!; try done; [apply response_data_is_prefix|].
  apply prefix_length, response_data_is_prefix.
Qed.

Lemma upload_returns_prefix_witness :
  ∃ resp w' result shown,
    upload_bin negative_limit_request upload_world = (Returns resp, w') ∧
    status resp = 200%Z ∧
    process_frames (content sample_upload) = Returns result ∧
    shown `prefix_of` battery_data result.
Proof.
  destruct (upload_bin negative_limit_request upload_world)
    as [[resp|e] w'] eqn:Hrun; [|by vm_compute in Hrun].
  assert (status resp = 200%Z) as Hok.
  { pose proof Hrun as Hrun'. vm_compute in Hrun'. by injection Hrun' as <- _. }
  destruct (upload_returns_prefix negative_limit_request upload_world resp w'
              Hrun Hok)
    as (file & result & shown & Hfile & Hres & _ & Hprefix & _).
  injection Hfile as <-. by exists resp, w', result, shown.
Defined.

(** X16.  A negative [limit] (with [full] not true) cuts from the end: the
    successful response and the stored document hold all records but the
    last [-limit], and none when there are not more than that. *)
Theorem upload_negative_limit request w resp w' limit :
  upload_bin request w = (Returns resp, w') →
  status resp = 200%Z →
  arg_limit request = Some limit →
  (limit < 0)%Z →
  full_data request = false →
  ∃ file result,
    request_file request = Some file ∧
    process_frames (content file) = Returns result ∧
    jget "battery_data" (body resp)
      = Some (records_json
                (take (length (battery_data result) - Z.to_nat (- limit))
                   (battery_data result))).
Proof.
  intros Hrun Hok Hlimit Hneg Hfull.
  destruct (upload_success_inv _ _ _ _ Hrun Hok)
    as (file & msgs & result & w2 & smx & smn & smean
        & Hfile & _ & Hres & _ & -> & _).
  exists file, result. split_and!; try done. cbn. do 2 f_equal.
  unfold response_data, slice_to. rewrite Hlimit, Hfull.
  rewrite (proj2 (Z.leb_gt 0 limit) Hneg). f_equal. lia.
Qed.

Lemma upload_negative_limit_witness :
  ∃ resp w' result,
    upload_bin negative_limit_request upload_world = (Returns resp, w') ∧
    status resp = 200%Z ∧
    process_frames (content sample_upload) = Returns result ∧
    jget "battery_data" (body resp)
      = Some (records_json
                (take (length (battery_data result) - Z.to_nat (- -1))
                   (battery_data result))).
Proof.
  destruct (upload_bin negative_limit_request upload_world)
    as [[resp|e] w'] eqn:Hrun; [|by vm_compute in Hrun].
  assert (status resp = 200%Z) as Hok.
  { pose proof Hrun as Hrun'. vm_compute in Hrun'. by injection Hrun' as <- _. }
  destruct (upload_negative_limit negative_limit_request upload_world resp w'
              (-1) Hrun Hok eq_refl)
    as (file & result & Hfile & Hres & Hshown); [lia|reflexivity|].
  injection Hfile as <-. by exists resp, w', result.
Defined.

(** X17.  When the temporary file has been created but writing the upload
    into it fails, the handler answers 500 "Failed to save file" from the
    first [except] clause without calling [safe_remove_file]: the empty
    temporary file is left behind. *)
Theorem upload_save_failure_leaks request file w rest :
  request_file request = Some file →
  filename file ≠ EmptyString →
  faults w = false :: true :: rest →
  let tmp := "/tmp/tmp" +:+ pretty (temp_serial w) +:+ ".bin" in
  ∃ w',
    upload_bin request w
      = (Returns (jsonify [("error", JStr "Failed to save file: cannot write")]
                    500), w') ∧
    files w' !! tmp = Some (LogFile []) ∧
    cleanup_calls (trace w') = cleanup_calls (trace w).
Proof.
  intros Hfile Hname Hfaults tmp. unfold upload_bin. rewrite Hfile.
  apply String.eqb_neq in Hname as ->.
  unfold bind, time_time, save_upload, NamedTemporaryFile, try_except,
    write_file, bind, next_fault, get_files, set_files, raise, ret.
  cbn. rewrite Hfaults. cbn. eexists (World _ _ _ _ _).
  split; [done|]. cbn. split; [|done]. by rewrite lookup_insert_eq.
Qed.

Lemma upload_save_failure_leaks_witness :
  ∃ w',
    upload_bin sample_request
      (World ∅ (Q2Qc 1700000000.5) [false; true] 0 [])
      = (Returns (jsonify [("error", JStr "Failed to save file: cannot write")]
                    500), w') ∧
    files w' !! "/tmp/tmp0.bin" = Some (LogFile []).
Proof.
  destruct (upload_save_failure_leaks sample_request sample_upload
              (World ∅ (Q2Qc 1700000000.5) [false; true] 0 []) []
              eq_refl)
    as (w' & Hrun & Hleft & _); [done|reflexivity|].
  by exists w'.
Defined.

Lemma types_loop_bad_read msgs e rest acc :
  types_loop ((Frame <$> msgs) ++ BadRead e :: rest) acc = Raises e.
Proof.
  revert acc. induction msgs as [|m msgs IH]; intros acc; [done|].
  rewrite fmap_cons. cbn [app types_loop]. apply IH.
Qed.

Lemma save_upload_stored file w log_path w1 :
  save_upload file w = (Returns (inr log_path), w1) →
  files w1 !! log_path = Some (LogFile (content file)).
Proof.
  intros Hsave.
  destruct (save_upload_cases file w)
    as (w' & _ & _ & [(failure & Hs & _)|(p & Hs & Hlog)]);
    rewrite Hs in Hsave; [done|].
  by injection Hsave as <- <-.
Qed.

Lemma upload_bin_saved request file w log_path w1 :
  request_file request = Some file →
  filename file ≠ EmptyString →
  save_upload file w = (Returns (inr log_path), w1) →
  upload_bin request w =
    try_except
      (upload_body request
         (default (pretty (py_int (clock w))) (arg_key request)) log_path)
      (λ e, bind (safe_remove_file_default log_path)
              (λ _, ret (processing_error e)))
      w1.
Proof.
  intros Hfile Hname Hsave. unfold upload_bin. rewrite Hfile.
  apply String.eqb_neq in Hname as ->.
  unfold bind at 1, time_time. unfold bind at 1. by rewrite Hsave.
Qed.

(** X18.  A log that cannot be read to its end is answered with status 500
    and the reader's message: the handler's own first pass over the log
    raises before any battery processing starts. *)
Theorem upload_unreadable_log request file msgs e rest log_path w w1 :
  request_file request = Some file →
  filename file ≠ EmptyString →
  content file = (Frame <$> msgs) ++ BadRead e :: rest →
  save_upload file w = (Returns (inr log_path), w1) →
  ∃ w',
    upload_bin request w = (Returns (processing_error e), w') ∧
    status (processing_error e) = 500%Z ∧
    jget "error" (body (processing_error e))
      = Some (JStr ("Error processing file: " +:+ str_exn e)).
Proof.
  intros Hfile Hname Hcontent Hsave.
  rewrite (upload_bin_saved _ _ _ _ _ Hfile Hname Hsave).
  pose proof (save_upload_stored _ _ _ _ Hsave) as Hlog.
  unfold try_except. rewrite (upload_body_unfold _ _ _ _ _ Hlog).
  rewrite Hcontent, types_loop_bad_read. unfold bind.
  destruct (safe_remove_file_default_spec log_path w1)
    as (b & w' & new & -> & _).
  by exists w'.
Qed.

Lemma upload_unreadable_log_witness :
  ∃ w',
    upload_bin
      (Request (Some (Upload "cut.bin"
                        ((Frame <$> sample_msgs)
                           ++ BadRead (OSError "short read") :: [])))
         None None None)
      upload_world
    = (Returns (processing_error (OSError "short read")), w').
Proof.
  set (file := Upload "cut.bin"
                 ((Frame <$> sample_msgs)
                    ++ BadRead (OSError "short read") :: [])).
  destruct (save_upload file upload_world) as [[[failure|log_path]|e] w1]
    eqn:Hsave; [by vm_compute in Hsave| |by vm_compute in Hsave].
  destruct (upload_unreadable_log (Request (Some file) None None None) file
              sample_msgs (OSError "short read") [] log_path upload_world w1
              eq_refl)
    as (w' & Hrun & _); [done|reflexivity|exact Hsave|].
  by exists w'.
Defined.










